(** * Remap: the store reducer and the HID connection workflows

    A shallow embedding of [store/reducers.ts] (the immer reducer) and of
    [actions/hid.action.ts] (the thunked connection workflows), together with
    the properties of the state-management layer that the specification
    lists. *)

From Equations Require Import Equations.
From stdpp Require Import base strings list gmap pretty.
From Stdlib Require Import ZArith Ascii.

Open Scope string_scope.
Open Scope list_scope.
Open Scope Z_scope.

(** ** JavaScript values carried by action descriptors *)

(** A keyboard handle is a host object: the code compares handles with [==]
    (object identity) and calls their methods.  A handle is its reference;
    what its methods answer is part of the device environment ([HidEnv]). *)
Inductive IKeyboard : Type :=
| KeyboardRef (ref : nat).

Global Instance IKeyboard_eq_dec : EqDecision IKeyboard.
Proof. solve_decision. Defined.

(** Modelled from the spec: [store/state.ts] is not part of the sources.  The
    phases are the ones of the session state machine of the specification
    ([idle], [keyboardNotSelected], [openedKeyboard],
    [fetchingKeyboardDefinition]); the last three are used by
    [hid.action.ts]. *)
Inductive SetupPhase : Type :=
| idle
| keyboardNotSelected
| openedKeyboard
| fetchingKeyboardDefinition.

(** [value: any].  Numbers are the integers. *)
#[warnings="-register-all"]
Inductive Value : Type :=
| VUndefined
| VNull
| VBool (b : bool)
| VNum (n : Z)
| VStr (s : string)
| VKeyboard (k : IKeyboard)
| VPhase (p : SetupPhase)
| VArr (xs : list Value)
| VObj (fields : list (string * Value)).

(** [export type Action = { type: string; value: any }] *)
Record Action : Type := mkAction { type : string; value : Value }.

(** ** Failure *)

(** [TypeError]: the JavaScript engine throws (a property of [undefined] or
    [null] is read, a method of a non-array is called, an index is out of
    range).  [IllTyped]: the payload is not of the TypeScript type of the
    state field it is stored in; the typed state below has no value for
    it. *)
Inductive Error : Type :=
| TypeError
| IllTyped.

Inductive Result (A : Type) : Type :=
| Ok (a : A)
| Throw (e : Error).
Arguments Ok {A} a.
Arguments Throw {A} e.

Global Instance Result_ret : MRet Result := @Ok.
Global Instance Result_bind : MBind Result := λ A B f m,
  match m with
  | Ok a => f a
  | Throw e => Throw e
  end.

Fixpoint assoc (p : string) (fields : list (string * Value)) : option Value :=
  match fields with
  | [] => None
  | (q, v) :: rest => if String.eqb p q then Some v else assoc p rest
  end.

(** [v.p]: reading a property of [undefined] or [null] throws; a property a
    value does not have reads as [undefined]. *)
Definition get (v : Value) (p : string) : Result Value :=
  match v with
  | VUndefined | VNull => Throw TypeError
  | VObj fields => Ok (default VUndefined (assoc p fields))
  | _ => Ok VUndefined
  end.

(** Casts of a payload to the TypeScript type of the place it goes to. *)
Definition as_keyboard (v : Value) : Result IKeyboard :=
  match v with
  | VKeyboard k => Ok k
  | _ => Throw IllTyped
  end.

(** [IKeyboard | null]; [undefined] and [null] are indistinguishable for
    [==]. *)
Definition as_keyboard_or_null (v : Value) : Result (option IKeyboard) :=
  match v with
  | VKeyboard k => Ok (Some k)
  | VNull | VUndefined => Ok None
  | _ => Throw IllTyped
  end.

Fixpoint as_keyboard_list (xs : list Value) : Result (list IKeyboard) :=
  match xs with
  | [] => Ok []
  | x :: rest =>
      k ← as_keyboard x; ks ← as_keyboard_list rest; Ok (k :: ks)
  end.

Definition as_keyboards (v : Value) : Result (list IKeyboard) :=
  match v with
  | VArr xs => as_keyboard_list xs
  | _ => Throw IllTyped
  end.

Definition as_string (v : Value) : Result string :=
  match v with
  | VStr s => Ok s
  | _ => Throw IllTyped
  end.

Definition as_number (v : Value) : Result Z :=
  match v with
  | VNum n => Ok n
  | _ => Throw IllTyped
  end.

(** [s == v] for a string [s] and a value [v] that is neither a string nor
    [undefined] nor [null]: JavaScript converts first (the string to a number,
    in floating point; an array, an object or a handle to a primitive, by its
    own methods) and then compares.  These conversions belong to the host;
    what the comparison answers is a parameter of the development. *)
Class Coerced : Type := coerced_eq : string → Value → bool.

(** [s == v] for a string [s]: two strings are equal when they are the same
    string, and a string equals neither [undefined] nor [null]. *)
Definition loose_eq {host : Coerced} (s : string) (v : Value) : bool :=
  match v with
  | VStr s' => String.eqb s s'
  | VUndefined | VNull => false
  | _ => coerced_eq s v
  end.

(** [s != v] *)
Definition loose_ne {host : Coerced} (s : string) (v : Value) : bool :=
  negb (loose_eq s v).

(** One layer of the remap table: [{ [pos: string]: IKeymap }]. *)
Definition as_remap_layer (v : Value) : Result (gmap string Value) :=
  match v with
  | VObj fields => Ok (list_to_map fields)
  | _ => Throw IllTyped
  end.

Fixpoint as_remap_layers (xs : list Value) : Result (list (gmap string Value)) :=
  match xs with
  | [] => Ok []
  | x :: rest =>
      m ← as_remap_layer x; ms ← as_remap_layers rest; Ok (m :: ms)
  end.

Definition as_remaps (v : Value) : Result (list (gmap string Value)) :=
  match v with
  | VArr xs => as_remap_layers xs
  | _ => Throw IllTyped
  end.

(** ** The state tree *)

(** Modelled from the spec: [store/state.ts] is not part of the sources.  The
    tree has the slices and fields that [reducers.ts] and [hid.action.ts]
    read and write.  A field the reducer stores verbatim holds a [Value]; a
    field the code computes with has its TypeScript type: the known-keyboards
    collection [IKeyboard[]], the current handle [IKeyboard | null], the remap
    table (an array, by layer, of position-keyed tables), the macro table
    (keyed by keycode) and the notification queue. *)

Record Notification : Type := mkNotification {
  key : string;
  ntype : string;
  message : Value
}.

Module Device.
Record t : Type := mk {
  layerCount : Value;
  keymaps : Value;
  macros : gmap Z Value
}.
End Device.

Module Entities.
Record t : Type := mk {
  keyboards : list IKeyboard;
  keyboard : option IKeyboard;
  keyboardDefinition : Value;
  device : Device.t
}.
End Entities.

Module Package.
Record t : Type := mk { name : Value; version : Value }.
End Package.

Module App.
Record t : Type := mk {
  setupPhase : Value;
  remaps : list (gmap string Value);
  notifications : list Notification;
  package : Package.t
}.
End App.

Module Keyboards.
Record t : Type := mk { selectedPos : Value; selectedLayer : Value }.
End Keyboards.

Module Keycodes.
Record t : Type := mk { category : Value; keys : Value }.
End Keycodes.

Module Keydiff.
Record t : Type := mk { origin : Value; destination : Value }.
End Keydiff.

Module KeycodeKey.
Record t : Type := mk {
  draggingKey : Value;
  selectedKey : Value;
  hoverKey : Value
}.
End KeycodeKey.

Module Header.
Record t : Type := mk { flushLoading : Value }.
End Header.

Module KeyboardDefinitionForm.
Record t : Type := mk { dragging : Value }.
End KeyboardDefinitionForm.

(** [hid] (the device API instance) and [storage] are slices the reducer never
    touches. *)
Record RootState : Type := mkRootState {
  hid : Value;
  storage : Value;
  entities : Entities.t;
  app : App.t;
  keyboards : Keyboards.t;
  keycodes : Keycodes.t;
  keydiff : Keydiff.t;
  keycodeKey : KeycodeKey.t;
  header : Header.t;
  keyboardDefinitionForm : KeyboardDefinitionForm.t
}.

(** *** Assignments to the draft *)

Definition with_entities (f : Entities.t → Entities.t) (draft : RootState) : RootState :=
  mkRootState (hid draft) (storage draft) (f (entities draft)) (app draft)
    (keyboards draft) (keycodes draft) (keydiff draft) (keycodeKey draft)
    (header draft) (keyboardDefinitionForm draft).

Definition with_app (f : App.t → App.t) (draft : RootState) : RootState :=
  mkRootState (hid draft) (storage draft) (entities draft) (f (app draft))
    (keyboards draft) (keycodes draft) (keydiff draft) (keycodeKey draft)
    (header draft) (keyboardDefinitionForm draft).

Definition with_keyboards (f : Keyboards.t → Keyboards.t) (draft : RootState) : RootState :=
  mkRootState (hid draft) (storage draft) (entities draft) (app draft)
    (f (keyboards draft)) (keycodes draft) (keydiff draft) (keycodeKey draft)
    (header draft) (keyboardDefinitionForm draft).

Definition with_keycodes (f : Keycodes.t → Keycodes.t) (draft : RootState) : RootState :=
  mkRootState (hid draft) (storage draft) (entities draft) (app draft)
    (keyboards draft) (f (keycodes draft)) (keydiff draft) (keycodeKey draft)
    (header draft) (keyboardDefinitionForm draft).

Definition with_keydiff (f : Keydiff.t → Keydiff.t) (draft : RootState) : RootState :=
  mkRootState (hid draft) (storage draft) (entities draft) (app draft)
    (keyboards draft) (keycodes draft) (f (keydiff draft)) (keycodeKey draft)
    (header draft) (keyboardDefinitionForm draft).

Definition with_keycodeKey (f : KeycodeKey.t → KeycodeKey.t) (draft : RootState) : RootState :=
  mkRootState (hid draft) (storage draft) (entities draft) (app draft)
    (keyboards draft) (keycodes draft) (keydiff draft) (f (keycodeKey draft))
    (header draft) (keyboardDefinitionForm draft).

Definition with_header (f : Header.t → Header.t) (draft : RootState) : RootState :=
  mkRootState (hid draft) (storage draft) (entities draft) (app draft)
    (keyboards draft) (keycodes draft) (keydiff draft) (keycodeKey draft)
    (f (header draft)) (keyboardDefinitionForm draft).

Definition with_keyboardDefinitionForm
    (f : KeyboardDefinitionForm.t → KeyboardDefinitionForm.t) (draft : RootState) : RootState :=
  mkRootState (hid draft) (storage draft) (entities draft) (app draft)
    (keyboards draft) (keycodes draft) (keydiff draft) (keycodeKey draft)
    (header draft) (f (keyboardDefinitionForm draft)).

Definition set_keyboards (ks : list IKeyboard) (e : Entities.t) : Entities.t :=
  Entities.mk ks (Entities.keyboard e) (Entities.keyboardDefinition e) (Entities.device e).

Definition set_keyboard (k : option IKeyboard) (e : Entities.t) : Entities.t :=
  Entities.mk (Entities.keyboards e) k (Entities.keyboardDefinition e) (Entities.device e).

Definition set_keyboardDefinition (v : Value) (e : Entities.t) : Entities.t :=
  Entities.mk (Entities.keyboards e) (Entities.keyboard e) v (Entities.device e).

Definition with_device (f : Device.t → Device.t) (e : Entities.t) : Entities.t :=
  Entities.mk (Entities.keyboards e) (Entities.keyboard e)
    (Entities.keyboardDefinition e) (f (Entities.device e)).

Definition set_layerCount (v : Value) (d : Device.t) : Device.t :=
  Device.mk v (Device.keymaps d) (Device.macros d).

Definition set_keymaps (v : Value) (d : Device.t) : Device.t :=
  Device.mk (Device.layerCount d) v (Device.macros d).

Definition set_macros (m : gmap Z Value) (d : Device.t) : Device.t :=
  Device.mk (Device.layerCount d) (Device.keymaps d) m.

Definition set_setupPhase (v : Value) (a : App.t) : App.t :=
  App.mk v (App.remaps a) (App.notifications a) (App.package a).

Definition set_remaps (r : list (gmap string Value)) (a : App.t) : App.t :=
  App.mk (App.setupPhase a) r (App.notifications a) (App.package a).

Definition set_notifications (ns : list Notification) (a : App.t) : App.t :=
  App.mk (App.setupPhase a) (App.remaps a) ns (App.package a).

Definition set_package (p : Package.t) (a : App.t) : App.t :=
  App.mk (App.setupPhase a) (App.remaps a) (App.notifications a) p.

(** ** Action tags *)

(** [actions/hid.action.ts] *)
Definition HID_ACTIONS : string := "@Hid".
Definition HID_CONNECT_KEYBOARD : string := HID_ACTIONS +:+ "/ConnectDevice".
Definition HID_DISCONNECT_KEYBOARD : string := HID_ACTIONS +:+ "/DisconnectDevice".
Definition HID_UPDATE_KEYBOARD : string := HID_ACTIONS +:+ "/UpdateKeyboard".
Definition HID_UPDATE_KEYBOARD_LAYER_COUNT : string :=
  HID_ACTIONS +:+ "/UpdateKeyboardLayerCount".
Definition HID_UPDATE_KEYBOARD_LIST : string := HID_ACTIONS +:+ "/UpdateKeyboardList".
Definition HID_UPDATE_KEYMAPS : string := HID_ACTIONS +:+ "/UpdateKeymaps".
Definition HID_OPEN_KEYBOARD : string := HID_ACTIONS +:+ "/OpenKeyboard".

(** The tag constants that [reducers.ts] imports from [actions/actions.ts] and
    [actions/storage.action.ts].  Those files are not part of the sources, so
    the strings are parameters of the development. *)
Record ActionTags : Type := mkActionTags {
  KEYCODEKEY_ACTIONS : string;
  KEYCODEKEY_UPDATE_HOVER_KEY : string;
  KEYCODEKEY_UPDATE_SELECTED_KEY : string;
  KEYCODEKEY_UPDATE_DRAGGING_KEY : string;
  KEYCODES_ACTIONS : string;
  KEYCODES_UPDATE_CATEGORY : string;
  KEYCODES_UPDATE_MACRO : string;
  KEYCODES_LOAD_KEYCODE_INFO_FOR_ALL_CATEGORIES : string;
  KEYBOARDS_ACTIONS : string;
  KEYBOARDS_UPDATE_SELECTED_LAYER : string;
  KEYBOARDS_UPDATE_SELECTED_POS : string;
  KEYBOARDS_CLEAR_SELECTED_POS : string;
  NOTIFICATION_ACTIONS : string;
  NOTIFICATION_ADD_ERROR : string;
  NOTIFICATION_ADD_WARN : string;
  NOTIFICATION_ADD_INFO : string;
  NOTIFICATION_ADD_SUCCESS : string;
  NOTIFICATION_REMOVE : string;
  HEADER_ACTIONS : string;
  HEADER_UPDATE_FLUSH_LOADING : string;
  KEYDIFF_ACTIONS : string;
  KEYDIFF_UPDATE_KEYDIFF : string;
  KEYDIFF_CLEAR_KEYDIFF : string;
  APP_ACTIONS : string;
  APP_UPDATE_SETUP_PHASE : string;
  APP_REMAPS_INIT : string;
  APP_REMAPS_SET_KEY : string;
  APP_REMAPS_REMOVE_KEY : string;
  APP_PACKAGE_INIT : string;
  KEYBOARD_DEFINITION_FORM_ACTIONS : string;
  KEYBOARD_DEFINITION_FORM_UPDATE_DRAGGING : string;
  STORAGE_ACTIONS : string;
  STORAGE_UPDATE_KEYBOARD_DEFINITION : string
}.

(** [s.startsWith(prefix)] *)
Definition startsWith (s prefix : string) : bool := String.prefix prefix s.

(** ** The reducer *)

Section Reducers.

Context {host : Coerced}.

Variable T : ActionTags.

(** [state.ts: INIT_STATE], the default of the reducer's first parameter. *)
Variable INIT_STATE : RootState.

(** [Date.now()]: the clock reading, in milliseconds, of the run. *)
Variable now : Z.

Definition keyboardDefinitionFormReducer (action : Action) (draft : RootState)
    : Result RootState :=
  if String.eqb (type action) (KEYBOARD_DEFINITION_FORM_UPDATE_DRAGGING T) then
    Ok (with_keyboardDefinitionForm
          (λ _, KeyboardDefinitionForm.mk (value action)) draft)
  else Ok draft.

Definition storageReducer (action : Action) (draft : RootState) : Result RootState :=
  if String.eqb (type action) (STORAGE_UPDATE_KEYBOARD_DEFINITION T) then
    Ok (with_entities (set_keyboardDefinition (value action)) draft)
  else Ok draft.

(** [draft.app.remaps[layer][pos] = keymap]: assigning to a property of
    [remaps[layer]] throws when the index is outside the array. *)
Definition remaps_set (remaps : list (gmap string Value)) (layer : Z) (pos : string)
    (keymap : Value) : Result (list (gmap string Value)) :=
  if layer <? 0 then Throw TypeError
  else match remaps !! Z.to_nat layer with
       | Some tbl => Ok (<[Z.to_nat layer := <[pos := keymap]> tbl]> remaps)
       | None => Throw TypeError
       end.

(** [delete draft.app.remaps[layer][pos]] *)
Definition remaps_delete (remaps : list (gmap string Value)) (layer : Z) (pos : string)
    : Result (list (gmap string Value)) :=
  if layer <? 0 then Throw TypeError
  else match remaps !! Z.to_nat layer with
       | Some tbl => Ok (<[Z.to_nat layer := delete pos tbl]> remaps)
       | None => Throw TypeError
       end.

Definition appReducer (action : Action) (draft : RootState) : Result RootState :=
  if String.eqb (type action) (APP_UPDATE_SETUP_PHASE T) then
    Ok (with_app (set_setupPhase (value action)) draft)
  else if String.eqb (type action) (APP_REMAPS_INIT T) then
    remaps ← as_remaps (value action);
    Ok (with_app (set_remaps remaps) draft)
  else if String.eqb (type action) (APP_REMAPS_SET_KEY T) then
    layer ← get (value action) "layer" ≫= as_number;
    pos ← get (value action) "pos" ≫= as_string;
    keymap ← get (value action) "keymap";
    remaps ← remaps_set (App.remaps (app draft)) layer pos keymap;
    Ok (with_app (set_remaps remaps) draft)
  else if String.eqb (type action) (APP_REMAPS_REMOVE_KEY T) then
    layer ← get (value action) "layer" ≫= as_number;
    pos ← get (value action) "pos" ≫= as_string;
    remaps ← remaps_delete (App.remaps (app draft)) layer pos;
    Ok (with_app (set_remaps remaps) draft)
  else if String.eqb (type action) (APP_PACKAGE_INIT T) then
    name ← get (value action) "name";
    version ← get (value action) "version";
    Ok (with_app (set_package (Package.mk name version)) draft)
  else Ok draft.

Definition hidReducer (action : Action) (draft : RootState) : Result RootState :=
  if String.eqb (type action) HID_CONNECT_KEYBOARD then
    keyboard ← get (value action) "keyboard" ≫= as_keyboard;
    Ok (with_entities
          (λ e, set_keyboards (Entities.keyboards e ++ [keyboard]) e) draft)
  else if String.eqb (type action) HID_DISCONNECT_KEYBOARD then
    keyboard ← get (value action) "keyboard" ≫= as_keyboard_or_null;
    (* the array [filter] builds is dropped: the collection stays as it is *)
    let _dropped :=
      filter (λ item, Some item ≠ keyboard) (Entities.keyboards (entities draft)) in
    if bool_decide (Entities.keyboard (entities draft) = keyboard) then
      Ok (with_entities (set_keyboard None) draft)
    else Ok draft
  else if String.eqb (type action) HID_UPDATE_KEYBOARD then
    keyboard ← get (value action) "keyboard" ≫= as_keyboard_or_null;
    Ok (with_entities (set_keyboard keyboard) draft)
  else if String.eqb (type action) HID_UPDATE_KEYBOARD_LAYER_COUNT then
    layerCount ← get (value action) "layerCount";
    Ok (with_entities (with_device (set_layerCount layerCount)) draft)
  else if String.eqb (type action) HID_UPDATE_KEYBOARD_LIST then
    keyboards ← get (value action) "keyboards" ≫= as_keyboards;
    Ok (with_entities (set_keyboards keyboards) draft)
  else if String.eqb (type action) HID_UPDATE_KEYMAPS then
    keymaps ← get (value action) "keymaps";
    Ok (with_entities (with_device (set_keymaps keymaps)) draft)
  else Ok draft.

Definition keyboardsReducer (action : Action) (draft : RootState) : Result RootState :=
  if String.eqb (type action) (KEYBOARDS_CLEAR_SELECTED_POS T) then
    Ok (with_keyboards
          (λ k, Keyboards.mk (VStr EmptyString) (Keyboards.selectedLayer k)) draft)
  else if String.eqb (type action) (KEYBOARDS_UPDATE_SELECTED_LAYER T) then
    Ok (with_keyboards
          (λ k, Keyboards.mk (Keyboards.selectedPos k) (value action)) draft)
  else if String.eqb (type action) (KEYBOARDS_UPDATE_SELECTED_POS T) then
    Ok (with_keyboards
          (λ k, Keyboards.mk (value action) (Keyboards.selectedLayer k)) draft)
  else Ok draft.

Definition keycodesReducer (action : Action) (draft : RootState) : Result RootState :=
  if String.eqb (type action) (KEYCODES_UPDATE_CATEGORY T) then
    Ok (with_keycodes (λ k, Keycodes.mk (value action) (Keycodes.keys k)) draft)
  else if String.eqb (type action) (KEYCODES_UPDATE_MACRO T) then
    code ← get (value action) "code" ≫= as_number;
    text ← get (value action) "text";
    Ok (with_entities
          (with_device (λ d, set_macros (<[code := text]> (Device.macros d)) d)) draft)
  else if String.eqb (type action) (KEYCODES_LOAD_KEYCODE_INFO_FOR_ALL_CATEGORIES T) then
    Ok (with_keycodes (λ k, Keycodes.mk (Keycodes.category k) (value action)) draft)
  else Ok draft.

Definition keydiffReducer (action : Action) (draft : RootState) : Result RootState :=
  if String.eqb (type action) (KEYDIFF_UPDATE_KEYDIFF T) then
    origin ← get (value action) "origin";
    destination ← get (value action) "destination";
    Ok (with_keydiff (λ _, Keydiff.mk origin destination) draft)
  else if String.eqb (type action) (KEYDIFF_CLEAR_KEYDIFF T) then
    Ok (with_keydiff (λ _, Keydiff.mk VNull VNull) draft)
  else Ok draft.

Definition keycodekeyReducer (action : Action) (draft : RootState) : Result RootState :=
  if String.eqb (type action) (KEYCODEKEY_UPDATE_DRAGGING_KEY T) then
    Ok (with_keycodeKey
          (λ k, KeycodeKey.mk (value action) (KeycodeKey.selectedKey k)
                  (KeycodeKey.hoverKey k)) draft)
  else if String.eqb (type action) (KEYCODEKEY_UPDATE_SELECTED_KEY T) then
    Ok (with_keycodeKey
          (λ k, KeycodeKey.mk (KeycodeKey.draggingKey k) (value action)
                  (KeycodeKey.hoverKey k)) draft)
  else if String.eqb (type action) (KEYCODEKEY_UPDATE_HOVER_KEY T) then
    Ok (with_keycodeKey
          (λ k, KeycodeKey.mk (KeycodeKey.draggingKey k) (KeycodeKey.selectedKey k)
                  (value action)) draft)
  else Ok draft.

(** [[...draft.app.notifications, { key: Date.now().toString(), type, message }]] *)
Definition push_notification (ty : string) (action : Action) (draft : RootState)
    : RootState :=
  with_app
    (λ a, set_notifications
            (App.notifications a ++ [mkNotification (pretty now) ty (value action)]) a)
    draft.

Definition notificationReducer (action : Action) (draft : RootState) : Result RootState :=
  if String.eqb (type action) (NOTIFICATION_ADD_ERROR T) then
    Ok (push_notification "error" action draft)
  else if String.eqb (type action) (NOTIFICATION_ADD_WARN T) then
    Ok (push_notification "warning" action draft)
  else if String.eqb (type action) (NOTIFICATION_ADD_INFO T) then
    Ok (push_notification "info" action draft)
  else if String.eqb (type action) (NOTIFICATION_ADD_SUCCESS T) then
    Ok (push_notification "success" action draft)
  else if String.eqb (type action) (NOTIFICATION_REMOVE T) then
    let key' := value action in
    Ok (with_app
          (λ a, set_notifications
                  (filter (λ item, loose_ne (key item) key') (App.notifications a)) a)
          draft)
  else Ok draft.

Definition headerReducer (action : Action) (draft : RootState) : Result RootState :=
  if String.eqb (type action) (HEADER_UPDATE_FLUSH_LOADING T) then
    Ok (with_header (λ _, Header.mk (value action)) draft)
  else Ok draft.

(** [immer(state, (draft) => { ... })]: the recipe edits a draft of [state];
    when it returns the draft is the new state, when it throws there is
    none. *)
Definition reducers (state : option RootState) (action : Action) : Result RootState :=
  let draft := default INIT_STATE state in
  if startsWith (type action) HID_ACTIONS then
    hidReducer action draft
  else if startsWith (type action) (HEADER_ACTIONS T) then
    headerReducer action draft
  else if startsWith (type action) (KEYCODES_ACTIONS T) then
    keycodesReducer action draft
  else if startsWith (type action) (KEYBOARDS_ACTIONS T) then
    keyboardsReducer action draft
  else if startsWith (type action) (KEYCODEKEY_ACTIONS T) then
    keycodekeyReducer action draft
  else if startsWith (type action) (KEYDIFF_ACTIONS T) then
    keydiffReducer action draft
  else if startsWith (type action) (NOTIFICATION_ACTIONS T) then
    notificationReducer action draft
  else if startsWith (type action) (APP_ACTIONS T) then
    appReducer action draft
  else if startsWith (type action) (STORAGE_ACTIONS T) then
    storageReducer action draft
  else if startsWith (type action) (KEYBOARD_DEFINITION_FORM_ACTIONS T) then
    keyboardDefinitionFormReducer action draft
  else Ok draft.

End Reducers.

(** ** Action creators *)

(** [hid.action.ts: hidActions] *)
Module hidActions.

Definition connectKeyboard (keyboard : IKeyboard) : Action :=
  mkAction HID_CONNECT_KEYBOARD (VObj [("keyboard", VKeyboard keyboard)]).

Definition disconnectKeyboard (keyboard : IKeyboard) : Action :=
  mkAction HID_DISCONNECT_KEYBOARD (VObj [("keyboard", VKeyboard keyboard)]).

Definition updateKeyboard (keyboard : IKeyboard) : Action :=
  mkAction HID_UPDATE_KEYBOARD (VObj [("keyboard", VKeyboard keyboard)]).

Definition updateKeyboardLayerCount (layerCount : Z) : Action :=
  mkAction HID_UPDATE_KEYBOARD_LAYER_COUNT (VObj [("layerCount", VNum layerCount)]).

(** [updateKeyboardLayerCount(undefined)]: the creator stores its argument
    as it comes. *)
Definition updateKeyboardLayerCountUndefined : Action :=
  mkAction HID_UPDATE_KEYBOARD_LAYER_COUNT (VObj [("layerCount", VUndefined)]).

Definition updateKeyboardList (keyboards : list IKeyboard) : Action :=
  mkAction HID_UPDATE_KEYBOARD_LIST
    (VObj [("keyboards", VArr (VKeyboard <$> keyboards))]).

Definition updateKeymaps (keymaps : list Value) : Action :=
  mkAction HID_UPDATE_KEYMAPS (VObj [("keymaps", VArr keymaps)]).

End hidActions.

(** Modelled from the spec: [actions/actions.ts] is not part of the sources.
    [updateSetupPhase] is the phase transition; its payload is the phase, which
    the reducer stores as [app.setupPhase].  [remapsInit] is the remap-table
    re-initialization sized to the layer count: one empty table per layer.
    [remapsInitUndefined] is [remapsInit(undefined)]: without a layer count
    the table is taken to have no layer. *)
Module AppActions.

Definition updateSetupPhase (T : ActionTags) (phase : SetupPhase) : Action :=
  mkAction (APP_UPDATE_SETUP_PHASE T) (VPhase phase).

Definition remapsInit (T : ActionTags) (layerCount : Z) : Action :=
  mkAction (APP_REMAPS_INIT T) (VArr (replicate (Z.to_nat layerCount) (VObj []))).

Definition remapsInitUndefined (T : ActionTags) : Action :=
  mkAction (APP_REMAPS_INIT T) (VArr []).

End AppActions.

(** Modelled from the spec: [actions/actions.ts] is not part of the sources.
    The selected-layer update; its payload is the layer, which the reducer
    stores as [keyboards.selectedLayer]. *)
Module KeyboardsActions.

Definition updateSelectedLayer (T : ActionTags) (layer : Z) : Action :=
  mkAction (KEYBOARDS_UPDATE_SELECTED_LAYER T) (VNum layer).

End KeyboardsActions.

(** Modelled from the spec: [actions/actions.ts] is not part of the sources.
    The warning and error notifications; the payload is the message, which the
    reducer stores as the entry's [message]. *)
Module NotificationActions.

Definition addWarn (T : ActionTags) (msg : string) : Action :=
  mkAction (NOTIFICATION_ADD_WARN T) (VStr msg).

Definition addError (T : ActionTags) (msg : string) : Action :=
  mkAction (NOTIFICATION_ADD_ERROR T) (VStr msg).

End NotificationActions.

(** ** The device collaborator *)

(** Modelled from the spec: [services/hid/hid.ts] (the interfaces [IHid] and
    [IKeyboard]) is not part of the sources.  The capability set is the one of
    the specification: [connect() -> {success, keyboard?}],
    [detectKeyboards()], and per handle [isOpened()], [isSameDevice(other)],
    [open() -> {success}], [getInformation() -> {vendorId, productId}],
    [fetchLayerCount() -> {success, layerCount?}] and
    [fetchKeymaps(layer, rows, cols) -> {success, keymap?}].  A [HidEnv]
    holds what the device answers during one run of a workflow; a workflow
    makes each of its calls at most once, so the answers are indexed by the
    call. *)
Module ConnectResult.
Record t : Type := mk { success : bool; keyboard : option IKeyboard }.
End ConnectResult.

Module OpenResult.
Record t : Type := mk { success : bool }.
End OpenResult.

Module LayerCountResult.
Record t : Type := mk { success : bool; layerCount : option Z }.
End LayerCountResult.

Module KeymapsResult.
Record t : Type := mk { success : bool; keymap : Value }.
End KeymapsResult.

Record KeyboardInformation : Type := mkKeyboardInformation {
  vendorId : Z;
  productId : Z
}.

Record HidEnv : Type := mkHidEnv {
  connect : ConnectResult.t;
  detectKeyboards : list IKeyboard;
  isOpened : IKeyboard → bool;
  isSameDevice : IKeyboard → IKeyboard → bool;
  open : IKeyboard → OpenResult.t;
  getInformation : IKeyboard → KeyboardInformation;
  fetchLayerCount : IKeyboard → LayerCountResult.t;
  fetchKeymaps : IKeyboard → Z → Value → Value → KeymapsResult.t
}.

(** ** Thunks *)

(** What a workflow hands to [dispatch]: a plain action descriptor, or the
    definition-fetch workflow of the storage collaborator, which runs on its
    own. *)
Inductive Dispatched : Type :=
| Plain (action : Action)
| FetchKeyboardDefinition (vendorId productId : Z).

(** A run of a workflow: the dispatches it made, in order, and how it ended. *)
Record Thunk (A : Type) : Type := mkThunk {
  dispatched : list Dispatched;
  outcome : Result A
}.
Arguments mkThunk {A} dispatched outcome.
Arguments dispatched {A} t.
Arguments outcome {A} t.

Global Instance Thunk_ret : MRet Thunk := λ A a, mkThunk [] (Ok a).
Global Instance Thunk_bind : MBind Thunk := λ A B f m,
  match outcome m with
  | Ok a => mkThunk (dispatched m ++ dispatched (f a)) (outcome (f a))
  | Throw e => mkThunk (dispatched m) (Throw e)
  end.

Definition dispatch (d : Dispatched) : Thunk () := mkThunk [d] (Ok ()).

Definition throw {A : Type} (e : Error) : Thunk A := mkThunk [] (Throw e).

(** The non-null assertion [x!] of a handle: nothing is checked where it
    stands; an absent handle makes the method call that follows throw
    ([TypeError]). *)
Definition assert_present {A : Type} (e : Error) (x : option A) : Thunk A :=
  match x with
  | Some a => mret a
  | None => throw e
  end.

Definition lift {A : Type} (r : Result A) : Thunk A := mkThunk [] r.

(** The [for] loop of [initOpenedKeyboard]: [Some keymaps] when the loop runs
    to its end, [None] when a failed fetch makes the function [return]. *)
Equations? fetch_loop (E : HidEnv) (keyboard : IKeyboard) (rowCount columnCount : Value)
    (layerCount : Z) (i : Z) (keymaps : list Value) : option (list Value)
    by wf (Z.to_nat (layerCount - i)) lt :=
  fetch_loop E keyboard rowCount columnCount layerCount i keymaps
    with decide (i < layerCount) := {
    | left _ =>
        let keymapsResult := fetchKeymaps E keyboard i rowCount columnCount in
        if negb (KeymapsResult.success keymapsResult) then None
        else fetch_loop E keyboard rowCount columnCount layerCount (i + 1)
               (keymaps ++ [KeymapsResult.keymap keymapsResult])
    | right _ => Some keymaps }.
Proof. lia. Qed.

Section Workflows.

Variable T : ActionTags.
Variable E : HidEnv.

Definition getAuthorizedKeyboard : list IKeyboard := detectKeyboards E.

(** [layerResult.layerCount!] checks nothing.  With a layer count the loop
    fetches the layers below it.  Without one [layerCount] is [undefined]:
    [0 < undefined] is false, the loop body never runs, [keymaps] stays empty
    and the dispatches follow, the creators being handed [undefined]. *)
Definition initOpenedKeyboard (keyboard : IKeyboard) (rowCount columnCount : Value)
    : Thunk () :=
  let layerResult := fetchLayerCount E keyboard in
  if negb (LayerCountResult.success layerResult) then mret ()
  else
    match LayerCountResult.layerCount layerResult with
    | Some layerCount =>
        match fetch_loop E keyboard rowCount columnCount layerCount 0 [] with
        | None => mret ()
        | Some keymaps =>
            dispatch (Plain (hidActions.updateKeyboardLayerCount layerCount));;
            dispatch (Plain (hidActions.updateKeymaps keymaps));;
            dispatch (Plain (AppActions.remapsInit T layerCount));;
            dispatch (Plain (KeyboardsActions.updateSelectedLayer T 0));;
            dispatch (Plain (hidActions.updateKeyboard keyboard))
        end
    | None =>
        dispatch (Plain hidActions.updateKeyboardLayerCountUndefined);;
        dispatch (Plain (hidActions.updateKeymaps []));;
        dispatch (Plain (AppActions.remapsInitUndefined T));;
        dispatch (Plain (KeyboardsActions.updateSelectedLayer T 0));;
        dispatch (Plain (hidActions.updateKeyboard keyboard))
    end.

End Workflows.

(** [hid.action.ts: hidActionsThunk].  [state] is what [getState()] returns at
    the start of the workflow; [console.log] and [console.error] leave no
    trace in the model. *)
Module hidActionsThunk.
Section Thunks.

Variable T : ActionTags.
Variable E : HidEnv.

Definition connectAnotherKeyboard (state : RootState) : Thunk () :=
  let keyboards := Entities.keyboards (entities state) in
  let result := connect E in
  if negb (ConnectResult.success result) then
    dispatch (Plain (AppActions.updateSetupPhase T keyboardNotSelected))
  else
    keyboard ← assert_present TypeError (ConnectResult.keyboard result);
    if isOpened E keyboard then
      let listedKbd := List.find (λ kbd, isSameDevice E kbd keyboard) keyboards in
      match listedKbd with
      | Some _ => dispatch (Plain (AppActions.updateSetupPhase T openedKeyboard))
      | None =>
          let msg := "This device has already opened by another application" in
          dispatch (Plain (NotificationActions.addWarn T msg))
      end
    else
      let listedKbd := List.find (λ kbd, isSameDevice E kbd keyboard) keyboards in
      let targetKbd := match listedKbd with Some kbd => kbd | None => keyboard end in
      match listedKbd with
      | Some _ => mret ()
      | None => dispatch (Plain (hidActions.updateKeyboardList (keyboards ++ [keyboard])))
      end;;
      dispatch (Plain (hidActions.updateKeyboard targetKbd));;
      let keyboardInfo := getInformation E keyboard in
      dispatch (Plain (AppActions.updateSetupPhase T fetchingKeyboardDefinition));;
      dispatch (FetchKeyboardDefinition (vendorId keyboardInfo) (productId keyboardInfo)).

Definition connectKeyboard (keyboard : IKeyboard) (state : RootState) : Thunk () :=
  let keyboards := Entities.keyboards (entities state) in
  if isOpened E keyboard then
    (* [entities.keyboard?.isSameDevice(keyboard)] *)
    if match Entities.keyboard (entities state) with
       | Some current => isSameDevice E current keyboard
       | None => false
       end
    then dispatch (Plain (AppActions.updateSetupPhase T openedKeyboard))
    else
      let msg := "This device has already opened by another application" in
      dispatch (Plain (NotificationActions.addWarn T msg))
  else
    let listedKbd := List.find (λ kbd, isSameDevice E kbd keyboard) keyboards in
    let targetKbd := match listedKbd with Some kbd => kbd | None => keyboard end in
    match listedKbd with
    | Some _ => mret ()
    | None => dispatch (Plain (hidActions.updateKeyboardList (keyboards ++ [keyboard])))
    end;;
    dispatch (Plain (hidActions.updateKeyboard targetKbd));;
    let keyboardInfo := getInformation E keyboard in
    dispatch (Plain (AppActions.updateSetupPhase T fetchingKeyboardDefinition));;
    dispatch (FetchKeyboardDefinition (vendorId keyboardInfo) (productId keyboardInfo)).

Definition openKeyboard (state : RootState) : Thunk () :=
  keyboard ← assert_present TypeError (Entities.keyboard (entities state));
  let result := open E keyboard in
  if negb (OpenResult.success result) then
    dispatch (Plain (NotificationActions.addError T "Could not open"))
  else
    matrix ← lift (get (Entities.keyboardDefinition (entities state)) "matrix");
    rows ← lift (get matrix "rows");
    cols ← lift (get matrix "cols");
    initOpenedKeyboard T E keyboard rows cols;;
    dispatch (Plain (AppActions.updateSetupPhase T openedKeyboard)).

Definition updateAuthorizedKeyboardList (state : RootState) : Thunk () :=
  let keyboards := getAuthorizedKeyboard E in
  dispatch (Plain (hidActions.updateKeyboardList keyboards)).

End Thunks.
End hidActionsThunk.

(** ** The store *)

(** The plain action descriptors among the dispatches of a run. *)
Fixpoint plain_actions (ds : list Dispatched) : list Action :=
  match ds with
  | [] => []
  | Plain action :: rest => action :: plain_actions rest
  | FetchKeyboardDefinition _ _ :: rest => plain_actions rest
  end.

(** The store folds the reducer over the descriptors it is handed, each at
    the clock reading of its dispatch. *)
Fixpoint store_dispatch {host : Coerced} (T : ActionTags) (INIT_STATE : RootState)
    (state : RootState) (log : list (Z * Action)) : Result RootState :=
  match log with
  | [] => Ok state
  | (now, action) :: rest =>
      state' ← reducers T INIT_STATE now (Some state) action;
      store_dispatch T INIT_STATE state' rest
  end.

(** ** Routing *)

(** The sub-reducers, in the order the top-level reducer tries them. *)
Inductive Namespace : Type :=
| NsHid
| NsHeader
| NsKeycodes
| NsKeyboards
| NsKeycodeKey
| NsKeydiff
| NsNotification
| NsApp
| NsStorage
| NsKeyboardDefinitionForm.

Global Instance Namespace_eq_dec : EqDecision Namespace.
Proof. solve_decision. Defined.

(** The sub-reducer an action type reaches: the first namespace prefix, in
    the order of [reducers], that the type starts with. *)
Definition route (T : ActionTags) (ty : string) : option Namespace :=
  if startsWith ty HID_ACTIONS then Some NsHid
  else if startsWith ty (HEADER_ACTIONS T) then Some NsHeader
  else if startsWith ty (KEYCODES_ACTIONS T) then Some NsKeycodes
  else if startsWith ty (KEYBOARDS_ACTIONS T) then Some NsKeyboards
  else if startsWith ty (KEYCODEKEY_ACTIONS T) then Some NsKeycodeKey
  else if startsWith ty (KEYDIFF_ACTIONS T) then Some NsKeydiff
  else if startsWith ty (NOTIFICATION_ACTIONS T) then Some NsNotification
  else if startsWith ty (APP_ACTIONS T) then Some NsApp
  else if startsWith ty (STORAGE_ACTIONS T) then Some NsStorage
  else if startsWith ty (KEYBOARD_DEFINITION_FORM_ACTIONS T) then
    Some NsKeyboardDefinitionForm
  else None.

Definition sub_reducer {host : Coerced} (T : ActionTags) (now : Z) (ns : Namespace)
    : Action → RootState → Result RootState :=
  match ns with
  | NsHid => hidReducer
  | NsHeader => headerReducer T
  | NsKeycodes => keycodesReducer T
  | NsKeyboards => keyboardsReducer T
  | NsKeycodeKey => keycodekeyReducer T
  | NsKeydiff => keydiffReducer T
  | NsNotification => notificationReducer T now
  | NsApp => appReducer T
  | NsStorage => storageReducer T
  | NsKeyboardDefinitionForm => keyboardDefinitionFormReducer T
  end.

(** The tags that have a [case] in a sub-reducer, with that sub-reducer. *)
Definition handled (T : ActionTags) : list (string * Namespace) :=
  [ (HID_CONNECT_KEYBOARD, NsHid);
    (HID_DISCONNECT_KEYBOARD, NsHid);
    (HID_UPDATE_KEYBOARD, NsHid);
    (HID_UPDATE_KEYBOARD_LAYER_COUNT, NsHid);
    (HID_UPDATE_KEYBOARD_LIST, NsHid);
    (HID_UPDATE_KEYMAPS, NsHid);
    (HEADER_UPDATE_FLUSH_LOADING T, NsHeader);
    (KEYCODES_UPDATE_CATEGORY T, NsKeycodes);
    (KEYCODES_UPDATE_MACRO T, NsKeycodes);
    (KEYCODES_LOAD_KEYCODE_INFO_FOR_ALL_CATEGORIES T, NsKeycodes);
    (KEYBOARDS_CLEAR_SELECTED_POS T, NsKeyboards);
    (KEYBOARDS_UPDATE_SELECTED_LAYER T, NsKeyboards);
    (KEYBOARDS_UPDATE_SELECTED_POS T, NsKeyboards);
    (KEYCODEKEY_UPDATE_DRAGGING_KEY T, NsKeycodeKey);
    (KEYCODEKEY_UPDATE_SELECTED_KEY T, NsKeycodeKey);
    (KEYCODEKEY_UPDATE_HOVER_KEY T, NsKeycodeKey);
    (KEYDIFF_UPDATE_KEYDIFF T, NsKeydiff);
    (KEYDIFF_CLEAR_KEYDIFF T, NsKeydiff);
    (NOTIFICATION_ADD_ERROR T, NsNotification);
    (NOTIFICATION_ADD_WARN T, NsNotification);
    (NOTIFICATION_ADD_INFO T, NsNotification);
    (NOTIFICATION_ADD_SUCCESS T, NsNotification);
    (NOTIFICATION_REMOVE T, NsNotification);
    (APP_UPDATE_SETUP_PHASE T, NsApp);
    (APP_REMAPS_INIT T, NsApp);
    (APP_REMAPS_SET_KEY T, NsApp);
    (APP_REMAPS_REMOVE_KEY T, NsApp);
    (APP_PACKAGE_INIT T, NsApp);
    (STORAGE_UPDATE_KEYBOARD_DEFINITION T, NsStorage);
    (KEYBOARD_DEFINITION_FORM_UPDATE_DRAGGING T, NsKeyboardDefinitionForm) ].

(** A tag assignment is coherent when every handled tag reaches the
    sub-reducer that has its [case], and no two handled tags are the same
    string. *)
Definition tags_wf (T : ActionTags) : Prop :=
  Forall (λ tn, route T tn.1 = Some tn.2) (handled T) ∧ NoDup ((handled T).*1).

Global Instance tags_wf_dec (T : ActionTags) : Decision (tags_wf T).
Proof. unfold tags_wf. apply _. Defined.

(** ** Which fields a sub-reducer writes *)

(** The entries of the state tree. *)
Inductive Slice : Type :=
| S_hid
| S_storage
| S_entities
| S_app
| S_keyboards
| S_keycodes
| S_keydiff
| S_keycodeKey
| S_header
| S_keyboardDefinitionForm.

Global Instance Slice_eq_dec : EqDecision Slice.
Proof. solve_decision. Defined.

Definition same_slice (sl : Slice) (s s' : RootState) : Prop :=
  match sl with
  | S_hid => hid s' = hid s
  | S_storage => storage s' = storage s
  | S_entities => entities s' = entities s
  | S_app => app s' = app s
  | S_keyboards => keyboards s' = keyboards s
  | S_keycodes => keycodes s' = keycodes s
  | S_keydiff => keydiff s' = keydiff s
  | S_keycodeKey => keycodeKey s' = keycodeKey s
  | S_header => header s' = header s
  | S_keyboardDefinitionForm => keyboardDefinitionForm s' = keyboardDefinitionForm s
  end.

(** The reading of "every sub-reducer mutates only the slice of its own
    namespace": each namespace has one entry [own ns] of the state tree, and an
    action that reaches the sub-reducer of [ns] leaves every other entry as it
    was. *)
Definition slice_confined {host : Coerced} (T : ActionTags) (INIT_STATE : RootState)
    (own : Namespace → Slice) : Prop :=
  ∀ now state action state' ns,
    route T (type action) = Some ns →
    reducers T INIT_STATE now (Some state) action = Ok state' →
    ∀ sl, sl ≠ own ns → same_slice sl state state'.

(** The fields of the state tree, as fine as the sub-reducers tell them
    apart. *)
Inductive Field : Type :=
| F_hid
| F_storage
| F_entities_keyboards
| F_entities_keyboard
| F_entities_keyboardDefinition
| F_entities_device_layerCount
| F_entities_device_keymaps
| F_entities_device_macros
| F_app_setupPhase
| F_app_remaps
| F_app_notifications
| F_app_package
| F_keyboards
| F_keycodes
| F_keydiff
| F_keycodeKey
| F_header
| F_keyboardDefinitionForm.

Global Instance Field_eq_dec : EqDecision Field.
Proof. solve_decision. Defined.

Definition same_field (f : Field) (s s' : RootState) : Prop :=
  match f with
  | F_hid => hid s' = hid s
  | F_storage => storage s' = storage s
  | F_entities_keyboards =>
      Entities.keyboards (entities s') = Entities.keyboards (entities s)
  | F_entities_keyboard =>
      Entities.keyboard (entities s') = Entities.keyboard (entities s)
  | F_entities_keyboardDefinition =>
      Entities.keyboardDefinition (entities s') = Entities.keyboardDefinition (entities s)
  | F_entities_device_layerCount =>
      Device.layerCount (Entities.device (entities s')) =
      Device.layerCount (Entities.device (entities s))
  | F_entities_device_keymaps =>
      Device.keymaps (Entities.device (entities s')) =
      Device.keymaps (Entities.device (entities s))
  | F_entities_device_macros =>
      Device.macros (Entities.device (entities s')) =
      Device.macros (Entities.device (entities s))
  | F_app_setupPhase => App.setupPhase (app s') = App.setupPhase (app s)
  | F_app_remaps => App.remaps (app s') = App.remaps (app s)
  | F_app_notifications => App.notifications (app s') = App.notifications (app s)
  | F_app_package => App.package (app s') = App.package (app s)
  | F_keyboards => keyboards s' = keyboards s
  | F_keycodes => keycodes s' = keycodes s
  | F_keydiff => keydiff s' = keydiff s
  | F_keycodeKey => keycodeKey s' = keycodeKey s
  | F_header => header s' = header s
  | F_keyboardDefinitionForm => keyboardDefinitionForm s' = keyboardDefinitionForm s
  end.

(** The fields the [case]s of each sub-reducer assign to. *)
Definition writes (ns : Namespace) : list Field :=
  match ns with
  | NsHid =>
      [F_entities_keyboards; F_entities_keyboard;
       F_entities_device_layerCount; F_entities_device_keymaps]
  | NsHeader => [F_header]
  | NsKeycodes => [F_keycodes; F_entities_device_macros]
  | NsKeyboards => [F_keyboards]
  | NsKeycodeKey => [F_keycodeKey]
  | NsKeydiff => [F_keydiff]
  | NsNotification => [F_app_notifications]
  | NsApp => [F_app_setupPhase; F_app_remaps; F_app_package]
  | NsStorage => [F_entities_keyboardDefinition]
  | NsKeyboardDefinitionForm => [F_keyboardDefinitionForm]
  end.

(** ** Notifications *)

(** The keys of the notification queue, in queue order. *)
Definition notification_keys (state : RootState) : list string :=
  key <$> App.notifications (app state).

(** The tags whose [case] reads the clock. *)
Definition clock_tags (T : ActionTags) : list string :=
  [NOTIFICATION_ADD_ERROR T; NOTIFICATION_ADD_WARN T;
   NOTIFICATION_ADD_INFO T; NOTIFICATION_ADD_SUCCESS T].

(** The clock readings at which a sequence of dispatches adds
    notifications. *)
Fixpoint add_readings (T : ActionTags) (log : list (Z * Action)) : list Z :=
  match log with
  | [] => []
  | (now, action) :: rest =>
      if bool_decide (type action ∈ clock_tags T)
      then now :: add_readings T rest
      else add_readings T rest
  end.

(** ** Session initialization *)

(** The keymap the device hands back for layer [i]. *)
Definition fetched (E : HidEnv) (keyboard : IKeyboard) (rowCount columnCount : Value)
    (i : Z) : Value :=
  KeymapsResult.keymap (fetchKeymaps E keyboard i rowCount columnCount).

(** A failed fetch: [fetchLayerCount] fails, or it reports [N] layers and the
    fetch of one of them fails. *)
Definition fetch_fails (E : HidEnv) (keyboard : IKeyboard) (rowCount columnCount : Value)
    : Prop :=
  LayerCountResult.success (fetchLayerCount E keyboard) = false
  ∨ ∃ N j,
      fetchLayerCount E keyboard = LayerCountResult.mk true (Some N) ∧
      0 ≤ j < N ∧
      KeymapsResult.success (fetchKeymaps E keyboard j rowCount columnCount) = false.

(** ** The two connect workflows *)

(** [connectAnotherKeyboard] acquires its handle from the device picker,
    [connectKeyboard] is handed one. *)
Inductive ConnectWorkflow : Type :=
| ViaPicker
| ViaHandle (keyboard : IKeyboard).

Definition run_connect (T : ActionTags) (E : HidEnv) (w : ConnectWorkflow)
    (state : RootState) : Thunk () :=
  match w with
  | ViaPicker => hidActionsThunk.connectAnotherKeyboard T E state
  | ViaHandle keyboard => hidActionsThunk.connectKeyboard T E keyboard state
  end.

(** The workflow acquires the handle [keyboard]. *)
Definition acquires (E : HidEnv) (w : ConnectWorkflow) (keyboard : IKeyboard) : Prop :=
  match w with
  | ViaPicker => connect E = ConnectResult.mk true (Some keyboard)
  | ViaHandle k => k = keyboard
  end.

(** The state entries an opened handle is compared with: the known-keyboards
    collection in [connectAnotherKeyboard], the current handle in
    [connectKeyboard]. *)
Definition compared_entries (w : ConnectWorkflow) (state : RootState) : list IKeyboard :=
  match w with
  | ViaPicker => Entities.keyboards (entities state)
  | ViaHandle _ =>
      match Entities.keyboard (entities state) with
      | Some current => [current]
      | None => []
      end
  end.

Definition already_opened_msg : string :=
  "This device has already opened by another application".

(** The state the store reaches when it is handed the plain actions of a run,
    one at each of the clock readings. *)
Definition store_after {host : Coerced} {A : Type} (T : ActionTags) (INIT_STATE : RootState)
    (state : RootState) (clock : list Z) (run : Thunk A) : Result RootState :=
  store_dispatch T INIT_STATE state (zip clock (plain_actions (dispatched run))).

(** ** Concrete data for the runs below *)

(** A tag assignment in the style of [hid.action.ts]: a namespace is [@Name],
    a tag is its namespace followed by [/Name]. *)
Definition sampleTags : ActionTags := {|
  KEYCODEKEY_ACTIONS := "@KeycodeKey";
  KEYCODEKEY_UPDATE_HOVER_KEY := "@KeycodeKey/UpdateHoverKey";
  KEYCODEKEY_UPDATE_SELECTED_KEY := "@KeycodeKey/UpdateSelectedKey";
  KEYCODEKEY_UPDATE_DRAGGING_KEY := "@KeycodeKey/UpdateDraggingKey";
  KEYCODES_ACTIONS := "@Keycodes";
  KEYCODES_UPDATE_CATEGORY := "@Keycodes/UpdateCategory";
  KEYCODES_UPDATE_MACRO := "@Keycodes/UpdateMacro";
  KEYCODES_LOAD_KEYCODE_INFO_FOR_ALL_CATEGORIES :=
    "@Keycodes/LoadKeycodeInfoForAllCategories";
  KEYBOARDS_ACTIONS := "@Keyboards";
  KEYBOARDS_UPDATE_SELECTED_LAYER := "@Keyboards/UpdateSelectedLayer";
  KEYBOARDS_UPDATE_SELECTED_POS := "@Keyboards/UpdateSelectedPos";
  KEYBOARDS_CLEAR_SELECTED_POS := "@Keyboards/ClearSelectedPos";
  NOTIFICATION_ACTIONS := "@Notification";
  NOTIFICATION_ADD_ERROR := "@Notification/AddError";
  NOTIFICATION_ADD_WARN := "@Notification/AddWarn";
  NOTIFICATION_ADD_INFO := "@Notification/AddInfo";
  NOTIFICATION_ADD_SUCCESS := "@Notification/AddSuccess";
  NOTIFICATION_REMOVE := "@Notification/Remove";
  HEADER_ACTIONS := "@Header";
  HEADER_UPDATE_FLUSH_LOADING := "@Header/UpdateFlushLoading";
  KEYDIFF_ACTIONS := "@Keydiff";
  KEYDIFF_UPDATE_KEYDIFF := "@Keydiff/UpdateKeydiff";
  KEYDIFF_CLEAR_KEYDIFF := "@Keydiff/ClearKeydiff";
  APP_ACTIONS := "@App";
  APP_UPDATE_SETUP_PHASE := "@App/UpdateSetupPhase";
  APP_REMAPS_INIT := "@App/RemapsInit";
  APP_REMAPS_SET_KEY := "@App/RemapsSetKey";
  APP_REMAPS_REMOVE_KEY := "@App/RemapsRemoveKey";
  APP_PACKAGE_INIT := "@App/PackageInit";
  KEYBOARD_DEFINITION_FORM_ACTIONS := "@KeyboardDefinitionForm";
  KEYBOARD_DEFINITION_FORM_UPDATE_DRAGGING := "@KeyboardDefinitionForm/UpdateDragging";
  STORAGE_ACTIONS := "@Storage";
  STORAGE_UPDATE_KEYBOARD_DEFINITION := "@Storage/UpdateKeyboardDefinition"
|}.

(** A state with nothing connected: no known keyboards, no current handle, no
    notifications, phase [idle]; the keyboard definition has a 4 by 12
    matrix. *)
Definition sampleState : RootState := {|
  hid := VObj [("instance", VObj [])];
  storage := VObj [];
  entities := {|
    Entities.keyboards := [];
    Entities.keyboard := None;
    Entities.keyboardDefinition :=
      VObj [("name", VStr "sample");
            ("matrix", VObj [("rows", VNum 4); ("cols", VNum 12)])];
    Entities.device := {|
      Device.layerCount := VNum 0;
      Device.keymaps := VArr [];
      Device.macros := ∅
    |}
  |};
  app := {|
    App.setupPhase := VPhase idle;
    App.remaps := [];
    App.notifications := [];
    App.package := {| Package.name := VStr EmptyString; Package.version := VStr EmptyString |}
  |};
  keyboards := {| Keyboards.selectedPos := VStr EmptyString; Keyboards.selectedLayer := VNum 0 |};
  keycodes := {| Keycodes.category := VStr EmptyString; Keycodes.keys := VObj [] |};
  keydiff := {| Keydiff.origin := VNull; Keydiff.destination := VNull |};
  keycodeKey := {|
    KeycodeKey.draggingKey := VNull;
    KeycodeKey.selectedKey := VNull;
    KeycodeKey.hoverKey := VNull
  |};
  header := {| Header.flushLoading := VBool false |};
  keyboardDefinitionForm := {| KeyboardDefinitionForm.dragging := VBool false |}
|}.

(** [sampleState] with one warning in the queue, added at clock reading 999. *)
Definition sampleStateWarned : RootState :=
  with_app (set_notifications [mkNotification "999" "warning" (VStr "first")])
    sampleState.

(** A device on which [open] succeeds and [fetchLayerCount] fails. *)
Definition failingEnv : HidEnv := {|
  connect := ConnectResult.mk false None;
  detectKeyboards := [];
  isOpened := λ _, false;
  isSameDevice := λ a b, bool_decide (a = b);
  open := λ _, OpenResult.mk true;
  getInformation := λ _, mkKeyboardInformation 0x4653 0x0001;
  fetchLayerCount := λ _, LayerCountResult.mk false None;
  fetchKeymaps := λ _ _ _ _, KeymapsResult.mk false VUndefined
|}.

(** A device with two layers; the keymap of layer [i] is the table
    [{"0,0": i}]. *)
Definition twoLayerEnv : HidEnv := {|
  connect := ConnectResult.mk true (Some (KeyboardRef 1));
  detectKeyboards := [KeyboardRef 1];
  isOpened := λ _, false;
  isSameDevice := λ a b, bool_decide (a = b);
  open := λ _, OpenResult.mk true;
  getInformation := λ _, mkKeyboardInformation 0x4653 0x0001;
  fetchLayerCount := λ _, LayerCountResult.mk true (Some 2);
  fetchKeymaps := λ _ i _ _, KeymapsResult.mk true (VObj [("0,0", VNum i)])
|}.

(** [sampleState] with keyboard 1 known and current. *)
Definition sampleStateSelected : RootState :=
  with_entities
    (λ e, set_keyboard (Some (KeyboardRef 1)) (set_keyboards [KeyboardRef 1] e))
    sampleState.

(** A device environment in which every handle is the same device as every
    other (two keyboards of one model), none of them open. *)
Definition twinEnv : HidEnv := {|
  connect := ConnectResult.mk true (Some (KeyboardRef 3));
  detectKeyboards := [KeyboardRef 1; KeyboardRef 2];
  isOpened := λ _, false;
  isSameDevice := λ _ _, true;
  open := λ _, OpenResult.mk true;
  getInformation := λ _, mkKeyboardInformation 0x4653 0x0001;
  fetchLayerCount := λ _, LayerCountResult.mk true (Some 2);
  fetchKeymaps := λ _ i _ _, KeymapsResult.mk true (VObj [("0,0", VNum i)])
|}.

(** The handles of [twinEnv], with handle 3 already opened. *)
Definition twinOpenedEnv : HidEnv := {|
  connect := connect twinEnv;
  detectKeyboards := detectKeyboards twinEnv;
  isOpened := λ k, bool_decide (k = KeyboardRef 3);
  isSameDevice := isSameDevice twinEnv;
  open := open twinEnv;
  getInformation := getInformation twinEnv;
  fetchLayerCount := fetchLayerCount twinEnv;
  fetchKeymaps := fetchKeymaps twinEnv
|}.

(** A device environment in which handle 3 is opened and is the same device
    as no other handle. *)
Definition strangerEnv : HidEnv := {|
  connect := ConnectResult.mk true (Some (KeyboardRef 3));
  detectKeyboards := [KeyboardRef 1; KeyboardRef 2];
  isOpened := λ k, bool_decide (k = KeyboardRef 3);
  isSameDevice := λ a b, bool_decide (a = b);
  open := λ _, OpenResult.mk true;
  getInformation := λ _, mkKeyboardInformation 0x4653 0x0001;
  fetchLayerCount := λ _, LayerCountResult.mk true (Some 2);
  fetchKeymaps := λ _ i _ _, KeymapsResult.mk true (VObj [("0,0", VNum i)])
|}.

(** [sampleState] with keyboards 1 and 2 known, in this order, and keyboard 1
    current. *)
Definition sampleStateTwoKnown : RootState :=
  with_entities
    (λ e, set_keyboard (Some (KeyboardRef 1))
            (set_keyboards [KeyboardRef 1; KeyboardRef 2] e))
    sampleState.

(** [sampleStateTwoKnown] after keyboard 4 has become known as well. *)
Definition sampleStateLaterKnown : RootState :=
  with_entities
    (set_keyboards [KeyboardRef 1; KeyboardRef 2; KeyboardRef 4])
    sampleStateTwoKnown.

(** A run of dispatches on [sampleStateWarned]: an error is added at clock
    reading 1000, then the warning keyed 999 is dismissed. *)
Definition sampleDismissLog : list (Z * Action) :=
  [(1000, NotificationActions.addError sampleTags "second");
   (1001, mkAction (NOTIFICATION_REMOVE sampleTags) (VStr "999"))].

(** A host for the runs below: a string is [==] to the number it is the
    decimal rendering of, and to no other value that is not a string. *)
Definition sampleHost : Coerced := λ s v,
  match v with
  | VNum n => String.eqb s (pretty n)
  | _ => false
  end.

(** ** Descriptors of the remaining handled actions *)

(** The creators of these actions are in [actions/actions.ts], which is not
    part of the sources.  Each descriptor below carries its tag and a payload
    with exactly the properties that the [case] of the tag reads in
    [reducers.ts]. *)

(** [APP_REMAPS_SET_KEY]: the case reads [value.layer], [value.pos] and
    [value.keymap]. *)
Definition remapsSetKeyDescriptor (T : ActionTags) (layer : Z) (pos : string)
    (keymap : Value) : Action :=
  mkAction (APP_REMAPS_SET_KEY T)
    (VObj [("layer", VNum layer); ("pos", VStr pos); ("keymap", keymap)]).

(** [APP_REMAPS_REMOVE_KEY]: the case reads [value.layer] and [value.pos]. *)
Definition remapsRemoveKeyDescriptor (T : ActionTags) (layer : Z) (pos : string)
    : Action :=
  mkAction (APP_REMAPS_REMOVE_KEY T) (VObj [("layer", VNum layer); ("pos", VStr pos)]).

(** [KEYCODES_UPDATE_MACRO]: the case reads [value.code] and [value.text]. *)
Definition updateMacroDescriptor (T : ActionTags) (code : Z) (text : Value) : Action :=
  mkAction (KEYCODES_UPDATE_MACRO T) (VObj [("code", VNum code); ("text", text)]).

(** [NOTIFICATION_REMOVE]: the case reads [value] as the key. *)
Definition removeNotificationDescriptor (T : ActionTags) (key' : string) : Action :=
  mkAction (NOTIFICATION_REMOVE T) (VStr key').

(** The four notification-adding tags with the [type] their [case] writes. *)
Definition adding_cases (T : ActionTags) : list (string * string) :=
  [ (NOTIFICATION_ADD_ERROR T, "error");
    (NOTIFICATION_ADD_WARN T, "warning");
    (NOTIFICATION_ADD_INFO T, "info");
    (NOTIFICATION_ADD_SUCCESS T, "success") ].

(** [KEYDIFF_UPDATE_KEYDIFF]: the case reads [value.origin] and
    [value.destination]. *)
Definition updateKeydiffDescriptor (T : ActionTags) (origin destination : Value)
    : Action :=
  mkAction (KEYDIFF_UPDATE_KEYDIFF T)
    (VObj [("origin", origin); ("destination", destination)]).

(** The tags of the six [case]s of [hidReducer]. *)
Definition hid_cases : list string :=
  [ HID_CONNECT_KEYBOARD; HID_DISCONNECT_KEYBOARD; HID_UPDATE_KEYBOARD;
    HID_UPDATE_KEYBOARD_LAYER_COUNT; HID_UPDATE_KEYBOARD_LIST; HID_UPDATE_KEYMAPS ].

(** [sampleState] with a remap table of two layers: layer 0 is empty, layer 1
    remaps position ["0,0"]. *)
Definition sampleStateRemapped : RootState :=
  with_app (set_remaps [∅; {[ "0,0" := VNum 7 ]}]) sampleState.

(** ** Devices in the known-keyboards collection *)

(** No keyboard of the collection is the same device as one listed after
    it. *)
Definition distinct_devices (E : HidEnv) (l : list IKeyboard) : Prop :=
  ∀ (i j : nat) a b,
    (i < j)%nat → l !! i = Some a → l !! j = Some b → isSameDevice E a b = false.

(** The keyboard definition has no [matrix] to read the dimensions from: it is
    [undefined] or [null], or its [matrix] is. *)
Definition no_matrix (keyboardDefinition : Value) : Prop :=
  keyboardDefinition = VUndefined ∨ keyboardDefinition = VNull ∨
  get keyboardDefinition "matrix" = Ok VUndefined ∨
  get keyboardDefinition "matrix" = Ok VNull.

(** A device environment in which no handle is opened and handle 3 is the
    same device as no other handle. *)
Definition strangerEnvClosed : HidEnv := {|
  connect := ConnectResult.mk true (Some (KeyboardRef 3));
  detectKeyboards := [KeyboardRef 1; KeyboardRef 2];
  isOpened := λ _, false;
  isSameDevice := λ a b, bool_decide (a = b);
  open := λ _, OpenResult.mk false;
  getInformation := λ _, mkKeyboardInformation 0x4653 0x0001;
  fetchLayerCount := λ _, LayerCountResult.mk true (Some 0);
  fetchKeymaps := λ _ _ _ _, KeymapsResult.mk false VUndefined
|}.


(** [sampleStateSelected] without a keyboard definition. *)
Definition sampleStateUndefined : RootState :=
  with_entities (set_keyboardDefinition VNull) sampleStateSelected.

(** ** The BMP keycode table ([services/hid/KeycodeInfoListBmp.ts]) *)

(** The shape of the entries of [bmpKeyInfoList]; the type [KeyInfo] is
    declared in [KeycodeInfoList.ts], which is not part of the sources. *)
Module KeycodeInfo.
Record Name : Type := mkName { long : string; short : string }.
Record t : Type := mk {
  code : Z;
  name : Name;
  label : string;
  keywords : list string
}.
End KeycodeInfo.

Record KeyInfo : Type := mkKeyInfo { desc : string; keycodeInfo : KeycodeInfo.t }.

Definition keyInfo (desc : string) (code : Z) (long short label : string)
    (keywords : list string) : KeyInfo :=
  mkKeyInfo desc (KeycodeInfo.mk code (KeycodeInfo.mkName long short) label keywords).

Definition CATEGORY_LABEL_BMP : string := "BMP".

Definition bmpKeyInfoList : list KeyInfo := [
  keyInfo "Disable BLE HID sending" 24064 "BLE_DIS" "BLE_DIS" "BLE DIS" [];
  keyInfo "Enable BLE HID sending" 24065 "BLE_EN" "BLE_EN" "BLE EN" [];
  keyInfo "Disable USB HID sending" 24066 "USB_DIS" "USB_DIS" "USB DIS" [];
  keyInfo "Enable USB HID sending" 24067 "USB_EN" "USB_EN" "USB EN" [];
  keyInfo "Enable BLE and disable USB" 24068 "SEL_BLE" "SEL_BLE" "SEL BLE" [];
  keyInfo "Enable USB and disable BLE" 24069 "SEL_USB" "SEL_USB" "SEL USB" [];
  keyInfo "Start advertising to PeerID 0" 24070 "ADV_ID0" "ADV_ID0" "ADV ID0" [];
  keyInfo "Start advertising to PeerID 1" 24071 "ADV_ID1" "ADV_ID1" "ADV ID1" [];
  keyInfo "Start advertising to PeerID 2" 24072 "ADV_ID2" "ADV_ID2" "ADV ID2" [];
  keyInfo "Start advertising to PeerID 3" 24073 "ADV_ID3" "ADV_ID3" "ADV ID3" [];
  keyInfo "Start advertising to PeerID 4" 24074 "ADV_ID4" "ADV_ID4" "ADV ID4" [];
  keyInfo "Start advertising to PeerID 5" 24075 "ADV_ID5" "ADV_ID5" "ADV ID5" [];
  keyInfo "Start advertising to PeerID 6" 24076 "ADV_ID6" "ADV_ID6" "ADV ID6" [];
  keyInfo "Start advertising to PeerID 7" 24077 "ADV_ID7" "ADV_ID7" "ADV ID7" [];
  keyInfo "Start advertising without whitelist" 24078 "AD_WO_L" "AD_WO_L" "AD WO L" [];
  keyInfo "Delete bonding of PeerID 0" 24079 "DEL_ID0" "DEL_ID0" "DEL ID0" [];
  keyInfo "Delete bonding of PeerID 1" 24080 "DEL_ID1" "DEL_ID1" "DEL ID1" [];
  keyInfo "Delete bonding of PeerID 2" 24081 "DEL_ID2" "DEL_ID2" "DEL ID2" [];
  keyInfo "Delete bonding of PeerID 3" 24082 "DEL_ID3" "DEL_ID3" "DEL ID3" [];
  keyInfo "Delete bonding of PeerID 4" 24083 "DEL_ID4" "DEL_ID4" "DEL ID4" [];
  keyInfo "Delete bonding of PeerID 5" 24084 "DEL_ID5" "DEL_ID5" "DEL ID5" [];
  keyInfo "Delete bonding of PeerID 6" 24085 "DEL_ID6" "DEL_ID6" "DEL ID6" [];
  keyInfo "Delete bonding of PeerID 7" 24086 "DEL_ID7" "DEL_ID7" "DEL ID7" [];
  keyInfo "Delete all bonding" 24087 "DELBNDS" "DELBNDS" "DELBNDS" [];
  keyInfo "Start bootloader" 24088 "ENT_DFU" "ENT_DFU" "ENT DFU" [];
  keyInfo "Start web configurator" 24089 "ENT_WEB" "ENT_WEB" "ENT WEB" [];
  keyInfo "Deep sleep mode" 24090 "ENT_SLP" "ENT_SLP" "ENT SLP" [];
  keyInfo "Display battery level in milli volts" 24091 "BATT_LV" "BATT_LV" "BATT LV" [];
  keyInfo "Save EEPROM emulation" 24092 "SAVE_EE" "SAVE_EE" "BLE DIS" [];
  keyInfo "Delete EEPROM emulation" 24093 "DEL_EE" "DEL_EE" "BLE DIS" [];
  keyInfo "Send Alt+` or LANG1" 24094 "xEISU" "xEISU" "xEISU" [];
  keyInfo "Send Alt+` or LANG2" 24095 "xKANA" "xKANA" "xKANA" []
].

(** A name with every underscore turned into a space. *)
Fixpoint underscores_to_spaces (s : string) : string :=
  match s with
  | EmptyString => EmptyString
  | String c rest =>
      String (if Ascii.eqb c "_"%char then " "%char else c) (underscores_to_spaces rest)
  end.

(** ** The definition form ([components/keyboards/createdefinition/CreateDefinition.tsx]) *)

(** [!!v]: [undefined], [null], [false], [0] and the empty string are falsy,
    every other value is truthy. *)
Definition truthy (v : Value) : bool :=
  match v with
  | VUndefined | VNull => false
  | VBool b => b
  | VNum n => negb (n =? 0)
  | VStr s => negb (String.eqb s EmptyString)
  | _ => true
  end.

Module CreateDefinition.

(** The props the validation reads; each may be [undefined]. *)
Record Props : Type := mkProps {
  productName : Value;
  keyboardDefinition : Value;
  contactInformation : Value;
  agreement : Value;
  firmwareCodePlace : Value;
  qmkRepositoryFirstPullRequestUrl : Value;
  forkedRepositoryUrl : Value;
  forkedRepositoryEvidence : Value;
  otherPlaceHowToGet : Value;
  otherPlaceSourceCodeEvidence : Value;
  otherPlacePublisherEvidence : Value
}.

(** [type CreateKeyboardState] *)
Record State : Type := mkState { openConfirmDialog : bool; isSaveAsDraft : bool }.

(** The callbacks of the props that the handlers invoke. *)
Inductive Callback : Type :=
| backToList
| saveAsDraft
| submitForReview.

Global Instance Callback_eq_dec : EqDecision Callback.
Proof. solve_decision. Defined.

(** The state the constructor sets. *)
Definition initialState : State := mkState false true.

Section Validation.

(** [isQmkFirmwareCode], [isForkedQmkFirmwareCode] and [isOtherFirmwareCode]
    are imported from [ValidationUtils.ts], which is not part of the sources:
    they are parameters. *)
Variable isQmkFirmwareCode : Value → bool.
Variable isForkedQmkFirmwareCode : Value → bool.
Variable isOtherFirmwareCode : Value → bool.

Definition isFilledInAllField (props : Props) : bool :=
  truthy (productName props) && truthy (keyboardDefinition props).

(** The value of the [&&] chain: [false] when one of the first three
    operands is, the [agreement] prop itself when that is falsy, else
    [isFilledEvidence]. *)
Definition isFilledInAllFieldAndAgreed (props : Props) : Value :=
  let isFilledEvidence :=
    if isQmkFirmwareCode (firmwareCodePlace props) then
      truthy (qmkRepositoryFirstPullRequestUrl props)
    else if isForkedQmkFirmwareCode (firmwareCodePlace props) then
      truthy (forkedRepositoryUrl props) && truthy (forkedRepositoryEvidence props)
    else if isOtherFirmwareCode (firmwareCodePlace props) then
      truthy (otherPlaceHowToGet props) &&
      truthy (otherPlaceSourceCodeEvidence props) &&
      truthy (otherPlacePublisherEvidence props)
    else false in
  if negb (truthy (productName props)) then VBool false
  else if negb (truthy (keyboardDefinition props)) then VBool false
  else if negb (truthy (contactInformation props)) then VBool false
  else if negb (truthy (agreement props)) then agreement props
  else VBool isFilledEvidence.

(** [disabled={!this.isFilledInAllField()}] on the save-as-draft button and
    [disabled={!this.isFilledInAllFieldAndAgreed()}] on the submit button. *)
Definition saveAsDraftDisabled (props : Props) : bool := negb (isFilledInAllField props).

Definition submitForReviewDisabled (props : Props) : bool :=
  negb (truthy (isFilledInAllFieldAndAgreed props)).

End Validation.

(** The handlers: the state after [setState], and the callbacks invoked.
    [this.state] is the state at the start of the handler. *)
Definition handleBackButtonClick (state : State) : State * list Callback :=
  (state, [backToList]).

Definition handleSaveAsDraftButtonClick (state : State) : State * list Callback :=
  (mkState true true, []).

Definition handleSubmitForReviewButtonClick (state : State) : State * list Callback :=
  (mkState true false, []).

Definition handleConfirmYesClick (state : State) : State * list Callback :=
  (mkState false (isSaveAsDraft state),
   if isSaveAsDraft state then [saveAsDraft] else [submitForReview]).

Definition handleConfirmNoClick (state : State) : State * list Callback :=
  (mkState false (isSaveAsDraft state), []).

(** The clicks the component has a handler for, and a session of clicks. *)
Inductive Click : Type :=
| BackButton
| SaveAsDraftButton
| SubmitForReviewButton
| ConfirmYes
| ConfirmNo.

Global Instance Click_eq_dec : EqDecision Click.
Proof. solve_decision. Defined.

Definition handle (click : Click) : State → State * list Callback :=
  match click with
  | BackButton => handleBackButtonClick
  | SaveAsDraftButton => handleSaveAsDraftButtonClick
  | SubmitForReviewButton => handleSubmitForReviewButtonClick
  | ConfirmYes => handleConfirmYesClick
  | ConfirmNo => handleConfirmNoClick
  end.

Fixpoint session (state : State) (clicks : list Click) : State * list Callback :=
  match clicks with
  | [] => (state, [])
  | click :: rest =>
      let '(state1, called) := handle click state in
      let '(state2, called') := session state1 rest in
      (state2, called ++ called')
  end.

End CreateDefinition.

(** Sample firmware-place predicates: the place is the string of its kind. *)
Definition is_place (kind : string) (v : Value) : bool :=
  match v with
  | VStr s => String.eqb s kind
  | _ => false
  end.

(** A form filled in for a keyboard whose firmware is in the QMK
    repository. *)
Definition sampleProps : CreateDefinition.Props := {|
  CreateDefinition.productName := VStr "Sample";
  CreateDefinition.keyboardDefinition := VObj [("name", VStr "sample")];
  CreateDefinition.contactInformation := VStr "mail@example.com";
  CreateDefinition.agreement := VBool true;
  CreateDefinition.firmwareCodePlace := VStr "qmk";
  CreateDefinition.qmkRepositoryFirstPullRequestUrl := VStr "https://example.com/pull/1";
  CreateDefinition.forkedRepositoryUrl := VUndefined;
  CreateDefinition.forkedRepositoryEvidence := VUndefined;
  CreateDefinition.otherPlaceHowToGet := VUndefined;
  CreateDefinition.otherPlaceSourceCodeEvidence := VUndefined;
  CreateDefinition.otherPlacePublisherEvidence := VUndefined
|}.

(** The same form with no firmware code place chosen. *)
Definition samplePropsNoPlace : CreateDefinition.Props := {|
  CreateDefinition.productName := VStr "Sample";
  CreateDefinition.keyboardDefinition := VObj [("name", VStr "sample")];
  CreateDefinition.contactInformation := VStr "mail@example.com";
  CreateDefinition.agreement := VBool true;
  CreateDefinition.firmwareCodePlace := VUndefined;
  CreateDefinition.qmkRepositoryFirstPullRequestUrl := VStr "https://example.com/pull/1";
  CreateDefinition.forkedRepositoryUrl := VUndefined;
  CreateDefinition.forkedRepositoryEvidence := VUndefined;
  CreateDefinition.otherPlaceHowToGet := VUndefined;
  CreateDefinition.otherPlaceSourceCodeEvidence := VUndefined;
  CreateDefinition.otherPlacePublisherEvidence := VUndefined
|}.

(** * Properties *)

(** The properties hold whatever the host's conversions answer. *)
Section Properties.

Context {host : Coerced}.

(** ** The top-level reducer and its sub-reducers *)

Lemma reducers_route T INIT_STATE now state action :
  reducers T INIT_STATE now state action =
  match route T (type action) with
  | Some ns => sub_reducer T now ns action (default INIT_STATE state)
  | None => Ok (default INIT_STATE state)
  end.
Proof.
  unfold reducers, route.
  repeat (destruct (startsWith (type action) _); [reflexivity|]).
  reflexivity.
Qed.

(** A [switch] whose cases all miss leaves the draft as it is. *)
Ltac miss_cases H :=
  repeat match goal with
  | |- context [String.eqb ?a ?b] =>
      let E := fresh "E" in
      destruct (String.eqb_spec a b) as [E|_];
      [ exfalso; apply H; rewrite E; set_solver | ]
  end;
  reflexivity.

Lemma sub_reducer_unmatched T now ns action draft :
  (type action, ns) ∉ handled T →
  sub_reducer T now ns action draft = Ok draft.
Proof.
  intros H. unfold handled in H.
  destruct ns; cbn [sub_reducer];
    unfold hidReducer, headerReducer, keycodesReducer, keyboardsReducer,
      keycodekeyReducer, keydiffReducer, notificationReducer, appReducer,
      storageReducer, keyboardDefinitionFormReducer;
    miss_cases H.
Qed.

(** C9.  An action whose type is the tag of no [case] (an unknown tag, a
    future tag, a tag such as [HID_OPEN_KEYBOARD] that no sub-reducer
    handles) is a no-op: the reducer returns its input state, whatever the
    payload and the clock. *)
Theorem reducers_unmatched_tag T INIT_STATE now state action :
  type action ∉ (handled T).*1 →
  reducers T INIT_STATE now (Some state) action = Ok state.
Proof.
  intros H. rewrite reducers_route.
  destruct (route T (type action)) as [ns|]; [|reflexivity].
  apply sub_reducer_unmatched. intros Hin. apply H.
  apply list_elem_of_fmap. exists (type action, ns). split; [reflexivity|exact Hin].
Qed.

(** ** Disconnecting a keyboard *)

(** What the [HID_DISCONNECT_KEYBOARD] case does to the draft. *)
Lemma hidReducer_disconnect keyboard draft :
  hidReducer (hidActions.disconnectKeyboard keyboard) draft =
  Ok (if bool_decide (Entities.keyboard (entities draft) = Some keyboard)
      then with_entities (set_keyboard None) draft
      else draft).
Proof.
  unfold hidReducer, hidActions.disconnectKeyboard. cbn.
  destruct (bool_decide _); reflexivity.
Qed.

(** C10.  Processing the disconnect action of a handle leaves the
    known-keyboards collection as it is, sets the current handle to null
    exactly when the current handle is the disconnected keyboard, and
    changes no other field of the state. *)
Theorem disconnect_keeps_known_keyboards T INIT_STATE now state keyboard :
  ∃ state',
    reducers T INIT_STATE now (Some state) (hidActions.disconnectKeyboard keyboard)
      = Ok state' ∧
    Entities.keyboards (entities state') = Entities.keyboards (entities state) ∧
    Entities.keyboard (entities state') =
      (if bool_decide (Entities.keyboard (entities state) = Some keyboard)
       then None else Entities.keyboard (entities state)) ∧
    Entities.keyboardDefinition (entities state') =
      Entities.keyboardDefinition (entities state) ∧
    Entities.device (entities state') = Entities.device (entities state) ∧
    hid state' = hid state ∧
    storage state' = storage state ∧
    app state' = app state ∧
    keyboards state' = keyboards state ∧
    keycodes state' = keycodes state ∧
    keydiff state' = keydiff state ∧
    keycodeKey state' = keycodeKey state ∧
    header state' = header state ∧
    keyboardDefinitionForm state' = keyboardDefinitionForm state.
Proof.
  rewrite reducers_route.
  change (route T (type (hidActions.disconnectKeyboard keyboard))) with (Some NsHid).
  cbn [sub_reducer default]. rewrite hidReducer_disconnect.
  eexists. split; [reflexivity|].
  destruct (bool_decide _); cbn; repeat split; reflexivity.
Qed.

(** ** Which fields a sub-reducer writes: proofs *)

Lemma bind_Ok {A B : Type} (m : Result A) (f : A → Result B) (b : B) :
  m ≫= f = Ok b → ∃ a, m = Ok a ∧ f a = Ok b.
Proof. destruct m as [a|e]; cbn; [eauto | discriminate]. Qed.

(** Splits a run [... = Ok s'] of a sub-reducer into its [case]s. *)
Ltac reducer_cases H :=
  repeat match type of H with
  | context [String.eqb ?a ?b] => destruct (String.eqb a b) eqn:?
  | (_ ≫= _) = Ok _ =>
      let x := fresh "x" in
      let Hx := fresh "Hx" in
      apply bind_Ok in H as (x & Hx & H)
  | context [bool_decide ?P] => destruct (bool_decide P) eqn:?
  end;
  try (injection H as <-).

Lemma sub_reducer_writes T now ns action draft draft' :
  sub_reducer T now ns action draft = Ok draft' →
  ∀ f, f ∉ writes ns → same_field f draft draft'.
Proof.
  intros H f Hf.
  destruct ns; cbn [sub_reducer] in H;
    unfold hidReducer, headerReducer, keycodesReducer, keyboardsReducer,
      keycodekeyReducer, keydiffReducer, notificationReducer, appReducer,
      storageReducer, keyboardDefinitionFormReducer in H;
    reducer_cases H;
    destruct f; try reflexivity; exfalso; apply Hf; cbn; set_solver.
Qed.

(** C3, as the code has it.  An action that reaches the sub-reducer of a
    namespace changes no field outside the write set of that sub-reducer:
    [entities.keyboards], [entities.keyboard], [entities.device.layerCount]
    and [entities.device.keymaps] for [@Hid]; [entities.keyboardDefinition]
    for the storage namespace; [keycodes] and [entities.device.macros] for
    the keycodes namespace; [app.notifications] for the notification
    namespace; [app.setupPhase], [app.remaps] and [app.package] for the app
    namespace; the entry of their own name for the others. *)
Theorem reducers_write_sets T INIT_STATE now state action state' ns :
  route T (type action) = Some ns →
  reducers T INIT_STATE now (Some state) action = Ok state' →
  ∀ f, f ∉ writes ns → same_field f state state'.
Proof.
  intros Hroute H. rewrite reducers_route, Hroute in H. cbn [default] in H.
  exact (sub_reducer_writes _ _ _ _ _ _ H).
Qed.

(** The write sets of two sub-reducers never overlap. *)
Lemma writes_disjoint ns1 ns2 f :
  f ∈ writes ns1 → f ∈ writes ns2 → ns1 = ns2.
Proof.
  intros H1%(bool_decide_pack _) H2%(bool_decide_pack _).
  destruct ns1, ns2; try reflexivity; destruct f; vm_compute in H1, H2;
    contradiction.
Qed.

(** ** The clock *)

(** C4, as the code has it.  The reducer is a function of the state, the
    action and the clock reading, and only the four notification-adding
    cases read the clock: on every other action two runs on the same state and
    action agree, whatever the clock readings. *)
Theorem reducers_deterministic_off_clock T INIT_STATE now1 now2 state action :
  type action ∉ clock_tags T →
  reducers T INIT_STATE now1 state action = reducers T INIT_STATE now2 state action.
Proof.
  intros H. rewrite !reducers_route.
  destruct (route T (type action)) as [ns|]; [|reflexivity].
  destruct ns; try reflexivity.
  cbn [sub_reducer]. unfold notificationReducer, clock_tags in *.
  repeat match goal with
  | |- context [String.eqb ?a ?b] =>
      let E := fresh "E" in
      destruct (String.eqb_spec a b) as [E|_];
      [ exfalso; apply H; rewrite E; set_solver | ]
  end.
  reflexivity.
Qed.

(** ** The notification queue *)

(** What one reduction does to the queue: nothing, or it is one of the four
    adding cases and appends one entry keyed by the clock reading, or it is a
    dismissal and keeps the entries whose key is [!=] the payload. *)
Lemma reducers_notifications T INIT_STATE now state action state' :
  reducers T INIT_STATE now (Some state) action = Ok state' →
  App.notifications (app state') = App.notifications (app state)
  ∨ (type action ∈ clock_tags T ∧
     ∃ ty, App.notifications (app state') =
             App.notifications (app state)
               ++ [mkNotification (pretty now) ty (value action)])
  ∨ (type action = NOTIFICATION_REMOVE T ∧
     App.notifications (app state') =
       filter (λ item, loose_ne (key item) (value action))
         (App.notifications (app state))).
Proof.
  intros H. rewrite reducers_route in H. cbn [default] in H.
  destruct (route T (type action)) as [ns|]; [|injection H as <-; by left].
  destruct (decide (ns = NsNotification)) as [->|Hns].
  - cbn [sub_reducer] in H. unfold notificationReducer, clock_tags in *.
    destruct (String.eqb_spec (type action) (NOTIFICATION_ADD_ERROR T)) as [->|_];
      [injection H as <-; right; left; split; [left | by eexists]|].
    destruct (String.eqb_spec (type action) (NOTIFICATION_ADD_WARN T)) as [->|_];
      [injection H as <-; right; left; split; [right; left | by eexists]|].
    destruct (String.eqb_spec (type action) (NOTIFICATION_ADD_INFO T)) as [->|_];
      [injection H as <-; right; left; split; [do 2 right; left | by eexists]|].
    destruct (String.eqb_spec (type action) (NOTIFICATION_ADD_SUCCESS T)) as [->|_];
      [injection H as <-; right; left; split; [do 3 right; left | by eexists]|].
    destruct (String.eqb_spec (type action) (NOTIFICATION_REMOVE T)) as [Hty|_];
      [|injection H as <-; by left].
    injection H as <-. right; right. split; [exact Hty | reflexivity].
  - left. apply (sub_reducer_writes _ _ _ _ _ _ H F_app_notifications).
    destruct ns; try congruence; apply (bool_decide_unpack _); exact I.
Qed.

Lemma notification_keys_step T INIT_STATE now state action state' :
  reducers T INIT_STATE now (Some state) action = Ok state' →
  (NoDup (notification_keys state) →
   (type action ∈ clock_tags T → pretty now ∉ notification_keys state) →
   NoDup (notification_keys state')) ∧
  (∀ k, k ∈ notification_keys state' →
        k ∈ notification_keys state ∨ (type action ∈ clock_tags T ∧ k = pretty now)).
Proof.
  intros H. unfold notification_keys.
  destruct (reducers_notifications _ _ _ _ _ _ H)
    as [-> | [[Hadd [ty ->]] | [_ ->]]].
  - split; [done | by left].
  - rewrite fmap_app. cbn. split.
    + intros Hnd Hfresh. apply NoDup_app. split; [done|].
      split; [|apply NoDup_singleton].
      intros x Hx ->%list_elem_of_singleton. by apply Hfresh.
    + intros k [Hk | ->%list_elem_of_singleton]%elem_of_app; [by left | by right].
  - split.
    + intros Hnd _. eapply sublist_NoDup; [exact Hnd|].
      apply fmap_sublist, sublist_filter.
    + intros k (n' & -> & Hin%list_elem_of_filter)%list_elem_of_fmap.
      left. apply list_elem_of_fmap. exists n'. by destruct Hin.
Qed.

(** C5, as the code has it.  The key of an entry is the decimal rendering of
    the clock reading at which it was added.  Over a sequence of dispatches in
    which the notification-adding actions have pairwise distinct clock
    readings that render to no key already in the queue, a queue with pairwise
    distinct keys keeps pairwise distinct keys; and an entry that was in the
    queue and is no longer there was dismissed: the sequence has a
    [NOTIFICATION_REMOVE] action whose payload its key is [==] to, so that a
    payload that is a string is the key itself. *)
Theorem notifications_keyed_and_dismissed T INIT_STATE state log state' :
  store_dispatch T INIT_STATE state log = Ok state' →
  (NoDup (notification_keys state) →
   NoDup (add_readings T log) →
   (∀ now, now ∈ add_readings T log → pretty now ∉ notification_keys state) →
   NoDup (notification_keys state')) ∧
  (∀ n, n ∈ App.notifications (app state) →
        n ∉ App.notifications (app state') →
        ∃ now action, (now, action) ∈ log ∧
          type action = NOTIFICATION_REMOVE T ∧
          loose_eq (key n) (value action) = true ∧
          (∀ k, value action = VStr k → k = key n)).
Proof.
  revert state. induction log as [|[now action] log IH]; intros state H.
  - cbn in H. injection H as <-. split; [done|]. intros n Hin Hout. done.
  - cbn [store_dispatch] in H. apply bind_Ok in H as (state1 & Hstep & H).
    destruct (IH _ H) as [IHkeys IHgone].
    destruct (notification_keys_step _ _ _ _ _ _ Hstep) as [Hnd Hsub].
    split.
    + cbn [add_readings]. intros Hkeys Hlog Hfresh.
      destruct (decide (type action ∈ clock_tags T)) as [Hadd|Hadd].
      * rewrite bool_decide_eq_true_2 in Hlog, Hfresh by done.
        apply NoDup_cons in Hlog as [Hnow Hlog].
        apply IHkeys; [|done|].
        -- apply Hnd; [done|]. intros _. apply Hfresh. left.
        -- intros now' Hnow' [Hold | [_ Heq]]%Hsub.
           ++ apply (Hfresh now'); [by right | done].
           ++ apply (inj pretty) in Heq. by subst.
      * rewrite bool_decide_eq_false_2 in Hlog, Hfresh by done.
        apply IHkeys; [|done|].
        -- apply Hnd; [done|]. intros Hin. done.
        -- intros now' Hnow' [Hold | [Hin _]]%Hsub; [|done].
           by apply (Hfresh now').
    + intros n Hin Hout.
      destruct (reducers_notifications _ _ _ _ _ _ Hstep)
        as [Hsame | [[_ [ty Happ]] | [Hty Hfilter]]].
      * destruct (IHgone n) as (now' & a' & Hin' & Ha'); [by rewrite Hsame|done|].
        exists now', a'. split; [by right | done].
      * destruct (IHgone n) as (now' & a' & Hin' & Ha');
          [rewrite Happ; apply elem_of_app; by left|done|].
        exists now', a'. split; [by right | done].
      * destruct (loose_eq (key n) (value action)) eqn:Heq.
        -- exists now, action. split; [left|]. split; [exact Hty|].
           split; [exact Heq|]. intros k Hk. rewrite Hk in Heq.
           symmetry. by apply String.eqb_eq.
        -- destruct (IHgone n) as (now' & a' & Hin' & Ha');
             [rewrite Hfilter; apply list_elem_of_filter; split; [|done];
              unfold loose_ne; by rewrite Heq|done|].
           exists now', a'. split; [by right | done].
Qed.

(** ** Session initialization: proofs *)

Lemma fetch_loop_step E keyboard rowCount columnCount layerCount i keymaps :
  fetch_loop E keyboard rowCount columnCount layerCount i keymaps =
  if decide (i < layerCount) then
    if negb (KeymapsResult.success (fetchKeymaps E keyboard i rowCount columnCount))
    then None
    else fetch_loop E keyboard rowCount columnCount layerCount (i + 1)
           (keymaps ++ [fetched E keyboard rowCount columnCount i])
  else Some keymaps.
Proof.
  rewrite (fetch_loop_equation_1 E keyboard rowCount columnCount layerCount i keymaps).
  destruct (decide (i < layerCount)); reflexivity.
Qed.

(** When every fetch succeeds the loop ends with the keymaps of the layers
    [i], ..., [layerCount - 1], in that order, after the ones it had. *)
Lemma fetch_loop_all_ok E k r c N n : ∀ i acc,
  Z.to_nat (N - i) = n →
  (∀ j, i ≤ j < N → KeymapsResult.success (fetchKeymaps E k j r c) = true) →
  fetch_loop E k r c N i acc = Some (acc ++ (fetched E k r c <$> seqZ i (N - i))).
Proof.
  induction n as [|n IH]; intros i acc Hn Hok; rewrite fetch_loop_step.
  - rewrite decide_False by lia.
    rewrite seqZ_nil by lia. by rewrite app_nil_r.
  - rewrite decide_True by lia. rewrite Hok by lia. cbn [negb].
    rewrite IH; [|lia|intros j Hj; apply Hok; lia].
    rewrite (seqZ_cons i (N - i)) by lia. cbn [fmap list_fmap].
    rewrite <- app_assoc. cbn [app].
    replace (Z.succ i) with (i + 1) by lia.
    replace (Z.pred (N - i)) with (N - (i + 1)) by lia. reflexivity.
Qed.

(** When some fetch fails the loop makes the function return. *)
Lemma fetch_loop_some_fail E k r c N n : ∀ i acc j,
  Z.to_nat (N - i) = n →
  i ≤ j < N →
  KeymapsResult.success (fetchKeymaps E k j r c) = false →
  fetch_loop E k r c N i acc = None.
Proof.
  induction n as [|n IH]; intros i acc j Hn Hj Hfail; [lia|].
  rewrite fetch_loop_step. rewrite decide_True by lia.
  destruct (KeymapsResult.success (fetchKeymaps E k i r c)) eqn:Hi; [|reflexivity].
  cbn [negb]. apply (IH _ _ j); [lia| |done].
  destruct (decide (i = j)) as [->|]; [congruence|lia].
Qed.

(** After a failed fetch the initialization dispatches nothing: none of its
    five updates, and none of the keymaps it had fetched. *)
Lemma initOpenedKeyboard_fetch_fails T E keyboard rowCount columnCount :
  fetch_fails E keyboard rowCount columnCount →
  initOpenedKeyboard T E keyboard rowCount columnCount = mkThunk [] (Ok ()).
Proof.
  unfold initOpenedKeyboard. intros [Hfail | (N & j & Hcount & Hj & Hfail)].
  - rewrite Hfail. reflexivity.
  - rewrite Hcount. cbn.
    rewrite (fetch_loop_some_fail E keyboard rowCount columnCount N _ 0 [] j eq_refl Hj Hfail).
    reflexivity.
Qed.

(** C2.  When [fetchLayerCount] reports [N] layers and the fetch of every
    layer [0], ..., [N - 1] succeeds, the initialization dispatches exactly
    five actions, in this order, and ends normally: the layer-count update,
    whose payload holds [N] as [layerCount]; the keymap-set update, whose
    payload holds as [keymaps] an array of exactly [N] entries, the one at
    index [i] being the keymap that the fetch of layer [i] returned; the
    remap-table re-initialization, whose payload has one empty table for each
    of the [N] layers; the selected-layer update, whose payload is 0; and the
    current-handle update, whose payload holds the opened keyboard as
    [keyboard]. *)
Theorem initOpenedKeyboard_success T E keyboard rowCount columnCount N :
  fetchLayerCount E keyboard = LayerCountResult.mk true (Some N) →
  (∀ i, 0 ≤ i < N →
        KeymapsResult.success (fetchKeymaps E keyboard i rowCount columnCount) = true) →
  ∃ keymaps,
    initOpenedKeyboard T E keyboard rowCount columnCount =
      mkThunk
        [ Plain (mkAction HID_UPDATE_KEYBOARD_LAYER_COUNT
                   (VObj [("layerCount", VNum N)]));
          Plain (mkAction HID_UPDATE_KEYMAPS (VObj [("keymaps", VArr keymaps)]));
          Plain (mkAction (APP_REMAPS_INIT T)
                   (VArr (replicate (Z.to_nat N) (VObj []))));
          Plain (mkAction (KEYBOARDS_UPDATE_SELECTED_LAYER T) (VNum 0));
          Plain (mkAction HID_UPDATE_KEYBOARD
                   (VObj [("keyboard", VKeyboard keyboard)])) ]
        (Ok ()) ∧
    length keymaps = Z.to_nat N ∧
    (∀ i, 0 ≤ i < N →
          keymaps !! Z.to_nat i =
            Some (KeymapsResult.keymap
                    (fetchKeymaps E keyboard i rowCount columnCount))).
Proof.
  intros Hcount Hok.
  exists (fetched E keyboard rowCount columnCount <$> seqZ 0 N).
  split; [|split].
  - unfold initOpenedKeyboard. rewrite Hcount. cbn.
    rewrite (fetch_loop_all_ok E keyboard rowCount columnCount N _ 0 [] eq_refl Hok).
    cbn. rewrite Z.sub_0_r. reflexivity.
  - rewrite length_fmap, length_seqZ. reflexivity.
  - intros i Hi. rewrite list_lookup_fmap.
    rewrite (lookup_seqZ_lt 0 N (Z.to_nat i)) by lia. cbn. unfold fetched.
    by replace (Z.of_nat (Z.to_nat i)) with i by lia.
Qed.

(** ** Opening a keyboard *)

(** Whenever [open] succeeds and a fetch of the initialization fails,
    [openKeyboard] dispatches the transition to [openedKeyboard], and nothing
    else. *)
Lemma openKeyboard_fetch_fails T E state keyboard matrix rows cols :
  Entities.keyboard (entities state) = Some keyboard →
  OpenResult.success (open E keyboard) = true →
  get (Entities.keyboardDefinition (entities state)) "matrix" = Ok matrix →
  get matrix "rows" = Ok rows →
  get matrix "cols" = Ok cols →
  fetch_fails E keyboard rows cols →
  hidActionsThunk.openKeyboard T E state =
    mkThunk [Plain (AppActions.updateSetupPhase T openedKeyboard)] (Ok ()).
Proof.
  intros Hk Hopen Hm Hr Hc Hfail. unfold hidActionsThunk.openKeyboard.
  rewrite Hk. cbn. rewrite Hopen. cbn. rewrite Hm. cbn. rewrite Hr. cbn.
  rewrite Hc. cbn. rewrite (initOpenedKeyboard_fetch_fails _ _ _ _ _ Hfail).
  reflexivity.
Qed.

(** ** How the store takes the actions of the workflows *)

Lemma tags_wf_route T t ns :
  tags_wf T → (t, ns) ∈ handled T → route T t = Some ns.
Proof.
  intros [Hroute _] Hin. rewrite Forall_forall in Hroute. exact (Hroute _ Hin).
Qed.

Lemma tags_wf_distinct T i j t :
  tags_wf T → (handled T).*1 !! i = Some t → (handled T).*1 !! j = Some t → i = j.
Proof. intros [_ Hnd]. by apply NoDup_lookup. Qed.

Lemma reduce_updateSetupPhase T INIT_STATE now state phase :
  tags_wf T →
  reducers T INIT_STATE now (Some state) (AppActions.updateSetupPhase T phase) =
    Ok (with_app (set_setupPhase (VPhase phase)) state).
Proof.
  intros Hwf. rewrite reducers_route.
  rewrite (tags_wf_route T _ NsApp Hwf)
    by (apply (list_elem_of_lookup_2 _ 23%nat); reflexivity).
  cbn [sub_reducer default]. unfold appReducer. cbn [type AppActions.updateSetupPhase].
  rewrite String.eqb_refl. reflexivity.
Qed.

Lemma reduce_addWarn T INIT_STATE now state msg :
  tags_wf T →
  reducers T INIT_STATE now (Some state) (NotificationActions.addWarn T msg) =
    Ok (with_app
          (set_notifications
             (App.notifications (app state)
                ++ [mkNotification (pretty now) "warning" (VStr msg)]))
          state).
Proof.
  intros Hwf. rewrite reducers_route.
  rewrite (tags_wf_route T _ NsNotification Hwf)
    by (apply (list_elem_of_lookup_2 _ 19%nat); reflexivity).
  cbn [sub_reducer default]. unfold notificationReducer.
  cbn [type NotificationActions.addWarn].
  destruct (String.eqb_spec (NOTIFICATION_ADD_WARN T) (NOTIFICATION_ADD_ERROR T))
    as [Heq|_].
  - exfalso. assert (H : 19%nat = 18%nat); [|discriminate].
    apply (tags_wf_distinct T 19 18 (NOTIFICATION_ADD_WARN T) Hwf); [reflexivity|].
    cbn. by rewrite Heq.
  - rewrite String.eqb_refl. reflexivity.
Qed.

Lemma reduce_updateKeyboard T INIT_STATE now state keyboard :
  reducers T INIT_STATE now (Some state) (hidActions.updateKeyboard keyboard) =
    Ok (with_entities (set_keyboard (Some keyboard)) state).
Proof.
  rewrite reducers_route.
  change (route T (type (hidActions.updateKeyboard keyboard))) with (Some NsHid).
  reflexivity.
Qed.

(** ** Connecting a handle that is already open *)

Lemma find_is_Some {A : Type} (f : A → bool) (l : list A) (x : A) :
  x ∈ l → f x = true → ∃ y, List.find f l = Some y.
Proof.
  intros Hin Hx. destruct (List.find f l) as [y|] eqn:Hfind; [by exists y|].
  apply list_elem_of_In in Hin.
  pose proof (List.find_none f l Hfind x Hin). congruence.
Qed.

Lemma find_is_None {A : Type} (f : A → bool) (l : list A) :
  (∀ x, x ∈ l → f x = false) → List.find f l = None.
Proof.
  intros Hall. destruct (List.find f l) as [y|] eqn:Hfind; [|reflexivity].
  apply List.find_some in Hfind as [Hin%list_elem_of_In Hy].
  rewrite (Hall _ Hin) in Hy. discriminate.
Qed.

(** C6.  In either connect workflow, when the acquired handle reports itself
    opened and is the same device as an entry of the state it is compared
    with (a known keyboard in [connectAnotherKeyboard], the current handle in
    [connectKeyboard]), the workflow dispatches the transition to
    [openedKeyboard] and nothing else: no list update.  In the store the phase
    becomes [openedKeyboard]; the known-keyboards collection and the rest of
    [entities] stay as they are. *)
Theorem connect_opened_known T INIT_STATE E w state keyboard now :
  tags_wf T →
  acquires E w keyboard →
  isOpened E keyboard = true →
  (∃ kbd, kbd ∈ compared_entries w state ∧ isSameDevice E kbd keyboard = true) →
  run_connect T E w state =
    mkThunk [Plain (AppActions.updateSetupPhase T openedKeyboard)] (Ok ()) ∧
  ∃ state',
    store_after T INIT_STATE state [now] (run_connect T E w state) = Ok state' ∧
    App.setupPhase (app state') = VPhase openedKeyboard ∧
    Entities.keyboards (entities state') = Entities.keyboards (entities state) ∧
    entities state' = entities state.
Proof.
  intros Hwf Hacq Hopened (kbd & Hin & Hsame).
  assert (Hrun : run_connect T E w state =
            mkThunk [Plain (AppActions.updateSetupPhase T openedKeyboard)] (Ok ())).
  { destruct w as [|k]; cbn in Hacq, Hin |- *.
    - unfold hidActionsThunk.connectAnotherKeyboard. rewrite Hacq. cbn.
      rewrite Hopened.
      destruct (find_is_Some (λ kbd, isSameDevice E kbd keyboard) _ kbd Hin Hsame)
        as [y ->].
      reflexivity.
    - subst k. unfold hidActionsThunk.connectKeyboard. rewrite Hopened.
      destruct (Entities.keyboard (entities state)) as [current|];
        [|by apply elem_of_nil in Hin].
      apply list_elem_of_singleton in Hin as ->. rewrite Hsame. reflexivity. }
  split; [exact Hrun|].
  unfold store_after. rewrite Hrun. cbn.
  rewrite (reduce_updateSetupPhase _ _ _ _ _ Hwf). cbn.
  eexists. split; [reflexivity|]. repeat split.
Qed.

Lemma sampleTags_wf : tags_wf sampleTags.
Proof. apply (bool_decide_unpack _). vm_compute. exact I. Defined.

(** C7.  In either connect workflow, when the acquired handle reports itself
    opened and is the same device as no entry of the state it is compared
    with, the workflow dispatches one warning and nothing else.  In the
    store the warning is appended to the notification queue; the
    known-keyboards collection, the current handle and the phase stay as
    they are. *)
Theorem connect_opened_unknown T INIT_STATE E w state keyboard now :
  tags_wf T →
  acquires E w keyboard →
  isOpened E keyboard = true →
  (∀ kbd, kbd ∈ compared_entries w state → isSameDevice E kbd keyboard = false) →
  run_connect T E w state =
    mkThunk [Plain (NotificationActions.addWarn T already_opened_msg)] (Ok ()) ∧
  ∃ state',
    store_after T INIT_STATE state [now] (run_connect T E w state) = Ok state' ∧
    App.notifications (app state') =
      App.notifications (app state)
        ++ [mkNotification (pretty now) "warning" (VStr already_opened_msg)] ∧
    Entities.keyboards (entities state') = Entities.keyboards (entities state) ∧
    Entities.keyboard (entities state') = Entities.keyboard (entities state) ∧
    App.setupPhase (app state') = App.setupPhase (app state).
Proof.
  intros Hwf Hacq Hopened Hnone.
  assert (Hrun : run_connect T E w state =
            mkThunk [Plain (NotificationActions.addWarn T already_opened_msg)] (Ok ())).
  { destruct w as [|k]; cbn in Hacq, Hnone |- *.
    - unfold hidActionsThunk.connectAnotherKeyboard. rewrite Hacq. cbn.
      rewrite Hopened.
      rewrite (find_is_None (λ kbd, isSameDevice E kbd keyboard) _ Hnone).
      reflexivity.
    - subst k. unfold hidActionsThunk.connectKeyboard. rewrite Hopened.
      destruct (Entities.keyboard (entities state)) as [current|]; [|reflexivity].
      rewrite (Hnone current) by apply list_elem_of_singleton, eq_refl.
      reflexivity. }
  split; [exact Hrun|].
  unfold store_after. rewrite Hrun. cbn.
  rewrite (reduce_addWarn _ _ _ _ _ Hwf). cbn.
  eexists. split; [reflexivity|]. repeat split.
Qed.

(** ** Connecting a handle that is not open *)

Lemma find_first {A : Type} (f : A → bool) (l1 l2 : list A) (x : A) :
  (∀ y, y ∈ l1 → f y = false) → f x = true →
  List.find f (l1 ++ x :: l2) = Some x.
Proof.
  intros Hl1 Hx. induction l1 as [|y l1 IH]; cbn.
  - by rewrite Hx.
  - rewrite (Hl1 y) by left. apply IH. intros z Hz. apply Hl1. by right.
Qed.

(** The non-opened path of the two workflows, once a listed handle is the
    same device as the acquired one. *)
Lemma run_connect_listed T E w state keyboard listed :
  acquires E w keyboard →
  isOpened E keyboard = false →
  List.find (λ kbd, isSameDevice E kbd keyboard) (Entities.keyboards (entities state))
    = Some listed →
  run_connect T E w state =
    mkThunk
      [ Plain (hidActions.updateKeyboard listed);
        Plain (AppActions.updateSetupPhase T fetchingKeyboardDefinition);
        FetchKeyboardDefinition (vendorId (getInformation E keyboard))
          (productId (getInformation E keyboard)) ]
      (Ok ()).
Proof.
  intros Hacq Hclosed Hfind. destruct w as [|k]; cbn in Hacq |- *.
  - unfold hidActionsThunk.connectAnotherKeyboard. rewrite Hacq. cbn.
    rewrite Hclosed, Hfind. reflexivity.
  - subst k. unfold hidActionsThunk.connectKeyboard.
    rewrite Hclosed, Hfind. reflexivity.
Qed.

(** C8, as the code has it.  When a known keyboard [A] is the same device as
    the acquired, non-opened handle [B], either connect workflow dispatches no
    list update; it sets as current the first known keyboard that is the same
    device as [B], which is [A] when no keyboard listed before [A] is the
    same device as [B].  In the store the known-keyboards collection stays as
    it is and that listed handle is the current handle. *)
Theorem connect_listed_device T INIT_STATE E w state A B now1 now2 :
  tags_wf T →
  acquires E w B →
  isOpened E B = false →
  A ∈ Entities.keyboards (entities state) →
  isSameDevice E A B = true →
  ∃ listed,
    List.find (λ kbd, isSameDevice E kbd B) (Entities.keyboards (entities state))
      = Some listed ∧
    listed ∈ Entities.keyboards (entities state) ∧
    isSameDevice E listed B = true ∧
    (∀ before after,
       Entities.keyboards (entities state) = before ++ A :: after →
       (∀ kbd, kbd ∈ before → isSameDevice E kbd B = false) →
       listed = A) ∧
    run_connect T E w state =
      mkThunk
        [ Plain (hidActions.updateKeyboard listed);
          Plain (AppActions.updateSetupPhase T fetchingKeyboardDefinition);
          FetchKeyboardDefinition (vendorId (getInformation E B))
            (productId (getInformation E B)) ]
        (Ok ()) ∧
    ∃ state',
      store_after T INIT_STATE state [now1; now2] (run_connect T E w state)
        = Ok state' ∧
      Entities.keyboards (entities state') = Entities.keyboards (entities state) ∧
      Entities.keyboard (entities state') = Some listed.
Proof.
  intros Hwf Hacq Hclosed HA Hsame.
  destruct (find_is_Some (λ kbd, isSameDevice E kbd B) _ A HA Hsame) as [listed Hfind].
  exists listed. split; [exact Hfind|].
  pose proof (List.find_some _ _ Hfind) as [Hin%list_elem_of_In Hlisted].
  split; [exact Hin|]. split; [exact Hlisted|]. split.
  - intros before after Hsplit Hbefore. rewrite Hsplit in Hfind.
    rewrite (find_first (λ kbd, isSameDevice E kbd B) before after A Hbefore Hsame)
      in Hfind.
    congruence.
  - pose proof (run_connect_listed T E w state B listed Hacq Hclosed Hfind) as Hrun.
    split; [exact Hrun|].
    unfold store_after. rewrite Hrun. cbn.
    rewrite reduce_updateKeyboard. cbn.
    rewrite (reduce_updateSetupPhase _ _ _ _ _ Hwf). cbn.
    eexists. split; [reflexivity|]. split; reflexivity.
Qed.

(** * Further properties of the reducer *)

(** ** Reaching a [case] *)

Lemma reducers_handled T INIT_STATE now state action ns :
  tags_wf T → (type action, ns) ∈ handled T →
  reducers T INIT_STATE now (Some state) action = sub_reducer T now ns action state.
Proof.
  intros Hwf Hin. rewrite reducers_route, (tags_wf_route T _ ns Hwf Hin). reflexivity.
Qed.

Lemma tags_wf_eqb T i j t u :
  tags_wf T →
  (handled T).*1 !! i = Some t → (handled T).*1 !! j = Some u → i ≠ j →
  String.eqb t u = false.
Proof.
  intros Hwf Hi Hj Hij. apply String.eqb_neq. intros ->.
  apply Hij. exact (tags_wf_distinct T i j u Hwf Hi Hj).
Qed.

(** Runs [k] on the position of the tag [t] in [handled]. *)
Ltac with_tag_pos T t n k :=
  lazymatch n with
  | 30%nat => fail 0 "not a handled tag:" t
  | _ =>
      tryif assert_succeeds (assert ((handled T).*1 !! n = Some t) by reflexivity)
      then k n
      else with_tag_pos T t (S n) k
  end.

(** Reduces a [switch] on a handled tag to the body of its [case]. *)
Ltac switch_step Hwf :=
  lazymatch type of Hwf with
  | tags_wf ?T =>
      match goal with
      | |- context [String.eqb ?t ?t] => rewrite (String.eqb_refl t)
      | |- context [String.eqb ?t ?u] =>
          with_tag_pos T t 0%nat ltac:(fun i =>
          with_tag_pos T u 0%nat ltac:(fun j =>
            rewrite (tags_wf_eqb T i j t u Hwf eq_refl eq_refl ltac:(discriminate))))
      end
  end.

Ltac run_case Hwf ns :=
  lazymatch type of Hwf with
  | tags_wf ?T =>
      lazymatch goal with
      | |- context [reducers T ?I ?now (Some ?st) ?a] =>
          let t := eval cbn in (type a) in
          with_tag_pos T t 0%nat ltac:(fun i =>
            rewrite (reducers_handled T I now st a ns Hwf
                       (list_elem_of_lookup_2 (handled T) i (t, ns) eq_refl)));
          cbn [sub_reducer];
          unfold hidReducer, headerReducer, keycodesReducer, keyboardsReducer,
            keycodekeyReducer, keydiffReducer, notificationReducer, appReducer,
            storageReducer, keyboardDefinitionFormReducer;
          cbn [type value];
          repeat switch_step Hwf;
          cbv beta iota
      end
  end.

(** ** The remap table *)

(** Setting a key on a layer of the table: the position holds the keymap
    afterwards, the other positions of the layer and the other layers are as
    before, and the table keeps its number of layers. *)
Theorem remaps_set_key_in_range T INIT_STATE now state layer pos keymap tbl :
  tags_wf T →
  0 ≤ layer →
  App.remaps (app state) !! Z.to_nat layer = Some tbl →
  ∃ state' tbl',
    reducers T INIT_STATE now (Some state) (remapsSetKeyDescriptor T layer pos keymap)
      = Ok state' ∧
    length (App.remaps (app state')) = length (App.remaps (app state)) ∧
    App.remaps (app state') !! Z.to_nat layer = Some tbl' ∧
    tbl' !! pos = Some keymap ∧
    (∀ pos', pos' ≠ pos → tbl' !! pos' = tbl !! pos') ∧
    (∀ l, l ≠ Z.to_nat layer →
          App.remaps (app state') !! l = App.remaps (app state) !! l).
Proof.
  intros Hwf Hlayer Htbl. unfold remapsSetKeyDescriptor. run_case Hwf NsApp.
  cbn. unfold remaps_set. rewrite (proj2 (Z.ltb_ge layer 0) Hlayer), Htbl. cbn.
  eexists _, (<[pos:=keymap]> tbl). split; [reflexivity|].
  cbn. split; [apply length_insert|]. split.
  - apply list_lookup_insert_eq. by eapply lookup_lt_Some.
  - split; [apply lookup_insert_eq|]. split.
    + intros pos' Hne. by apply lookup_insert_ne.
    + intros l Hne. by apply list_lookup_insert_ne.
Qed.

(** A layer outside the table: [remaps[layer]] is [undefined], so setting or
    deleting a position of it throws and the reduction yields no state.  This
    is so for every layer as long as the table is empty. *)
Theorem remaps_key_out_of_range T INIT_STATE now state layer pos keymap :
  tags_wf T →
  layer < 0 ∨ Z.of_nat (length (App.remaps (app state))) ≤ layer →
  reducers T INIT_STATE now (Some state) (remapsSetKeyDescriptor T layer pos keymap)
    = Throw TypeError ∧
  reducers T INIT_STATE now (Some state) (remapsRemoveKeyDescriptor T layer pos)
    = Throw TypeError.
Proof.
  intros Hwf Hout.
  assert (Hlook : (layer <? 0) = false →
            App.remaps (app state) !! Z.to_nat layer = None).
  { intros Hge%Z.ltb_ge. apply lookup_ge_None. lia. }
  split.
  - unfold remapsSetKeyDescriptor. run_case Hwf NsApp. cbn. unfold remaps_set.
    destruct (layer <? 0) eqn:Hneg; [reflexivity|]. by rewrite Hlook.
  - unfold remapsRemoveKeyDescriptor. run_case Hwf NsApp. cbn. unfold remaps_delete.
    destruct (layer <? 0) eqn:Hneg; [reflexivity|]. by rewrite Hlook.
Qed.

(** Deleting a key: the position is absent afterwards, the other positions
    and layers are as before, and deleting a position that is already
    absent leaves the whole table as it is. *)
Theorem remaps_remove_key_in_range T INIT_STATE now state layer pos tbl :
  tags_wf T →
  0 ≤ layer →
  App.remaps (app state) !! Z.to_nat layer = Some tbl →
  ∃ state' tbl',
    reducers T INIT_STATE now (Some state) (remapsRemoveKeyDescriptor T layer pos)
      = Ok state' ∧
    App.remaps (app state') !! Z.to_nat layer = Some tbl' ∧
    tbl' !! pos = None ∧
    (∀ pos', pos' ≠ pos → tbl' !! pos' = tbl !! pos') ∧
    (∀ l, l ≠ Z.to_nat layer →
          App.remaps (app state') !! l = App.remaps (app state) !! l) ∧
    (tbl !! pos = None → App.remaps (app state') = App.remaps (app state)).
Proof.
  intros Hwf Hlayer Htbl. unfold remapsRemoveKeyDescriptor. run_case Hwf NsApp.
  cbn. unfold remaps_delete. rewrite (proj2 (Z.ltb_ge layer 0) Hlayer), Htbl. cbn.
  eexists _, (delete pos tbl). split; [reflexivity|]. cbn. split.
  - apply list_lookup_insert_eq. by eapply lookup_lt_Some.
  - split; [apply lookup_delete_eq|]. split; [|split].
    + intros pos' Hne. by apply lookup_delete_ne.
    + intros l Hne. by apply list_lookup_insert_ne.
    + intros Habsent. rewrite (delete_id _ _ Habsent). by apply list_insert_id.
Qed.

(** Setting a key and then deleting it: when the position was not remapped
    before, the table is back to what it was. *)
Theorem remaps_set_then_remove T INIT_STATE now1 now2 state layer pos keymap tbl :
  tags_wf T →
  0 ≤ layer →
  App.remaps (app state) !! Z.to_nat layer = Some tbl →
  tbl !! pos = None →
  ∃ state',
    store_dispatch T INIT_STATE state
      [(now1, remapsSetKeyDescriptor T layer pos keymap);
       (now2, remapsRemoveKeyDescriptor T layer pos)] = Ok state' ∧
    App.remaps (app state') = App.remaps (app state).
Proof.
  intros Hwf Hlayer Htbl Habsent. cbn [store_dispatch].
  unfold remapsSetKeyDescriptor at 1. run_case Hwf NsApp.
  cbn. unfold remaps_set. rewrite (proj2 (Z.ltb_ge layer 0) Hlayer), Htbl. cbn.
  unfold remapsRemoveKeyDescriptor. run_case Hwf NsApp.
  cbn. unfold remaps_delete. rewrite (proj2 (Z.ltb_ge layer 0) Hlayer).
  rewrite list_lookup_insert_eq by (by eapply lookup_lt_Some). cbn.
  eexists. split; [reflexivity|]. cbn.
  rewrite list_insert_insert_eq, (delete_insert_id _ _ _ Habsent).
  by apply list_insert_id.
Qed.

Lemma as_remap_layers_replicate n :
  as_remap_layers (replicate n (VObj [])) = Ok (replicate n ∅).
Proof. induction n as [|n IH]; cbn; [reflexivity|]. rewrite IH. reflexivity. Qed.

(** After the remap table is initialized for [N] layers it has [N] empty
    layers: a key can then be set on each layer [0], ..., [N - 1], and on that
    layer it is the only remapped position. *)
Theorem remaps_init_then_set_key T INIT_STATE now1 now2 state N layer pos keymap :
  tags_wf T →
  0 ≤ layer < N →
  ∃ state',
    store_dispatch T INIT_STATE state
      [(now1, AppActions.remapsInit T N);
       (now2, remapsSetKeyDescriptor T layer pos keymap)] = Ok state' ∧
    App.remaps (app state') =
      <[Z.to_nat layer := {[pos := keymap]}]> (replicate (Z.to_nat N) ∅) ∧
    length (App.remaps (app state')) = Z.to_nat N.
Proof.
  intros Hwf Hlayer. cbn [store_dispatch].
  unfold AppActions.remapsInit. run_case Hwf NsApp.
  cbn. rewrite as_remap_layers_replicate. cbn.
  unfold remapsSetKeyDescriptor. run_case Hwf NsApp.
  cbn. unfold remaps_set. rewrite (proj2 (Z.ltb_ge layer 0)) by lia.
  rewrite lookup_replicate_2 by lia. cbn.
  eexists. split; [reflexivity|]. cbn. split; [reflexivity|].
  by rewrite length_insert, length_replicate.
Qed.

(** ** The macro table *)

(** Updating a macro: the table holds the text under the code afterwards
    (replacing what was there), every other code keeps its macro, and the
    layer count and the keymaps of the device are untouched. *)
Theorem update_macro_lookup T INIT_STATE now state code text :
  tags_wf T →
  ∃ state',
    reducers T INIT_STATE now (Some state) (updateMacroDescriptor T code text)
      = Ok state' ∧
    Device.macros (Entities.device (entities state')) !! code = Some text ∧
    (∀ code', code' ≠ code →
       Device.macros (Entities.device (entities state')) !! code' =
       Device.macros (Entities.device (entities state)) !! code') ∧
    Device.layerCount (Entities.device (entities state')) =
      Device.layerCount (Entities.device (entities state)) ∧
    Device.keymaps (Entities.device (entities state')) =
      Device.keymaps (Entities.device (entities state)).
Proof.
  intros Hwf. unfold updateMacroDescriptor. run_case Hwf NsKeycodes. cbn.
  eexists. split; [reflexivity|]. cbn. split; [apply lookup_insert_eq|].
  split; [|split; reflexivity]. intros code' Hne. by apply lookup_insert_ne.
Qed.

(** ** Adding and dismissing notifications *)

Lemma reduce_add T INIT_STATE now state action ty :
  tags_wf T →
  (type action, ty) ∈ adding_cases T →
  reducers T INIT_STATE now (Some state) action =
    Ok (with_app
          (set_notifications
             (App.notifications (app state)
                ++ [mkNotification (pretty now) ty (value action)]))
          state).
Proof.
  intros Hwf Hin. destruct action as [t v]. cbn [type value] in *.
  unfold adding_cases in Hin.
  assert (Hcases : (t, ty) = (NOTIFICATION_ADD_ERROR T, "error")
                 ∨ (t, ty) = (NOTIFICATION_ADD_WARN T, "warning")
                 ∨ (t, ty) = (NOTIFICATION_ADD_INFO T, "info")
                 ∨ (t, ty) = (NOTIFICATION_ADD_SUCCESS T, "success")).
  { repeat (apply elem_of_cons in Hin as [Hin|Hin]; [eauto 6|]).
    by apply elem_of_nil in Hin. }
  destruct Hcases as [Heq | [Heq | [Heq | Heq]]]; injection Heq as -> ->;
    run_case Hwf NsNotification; reflexivity.
Qed.

(** For a string payload [!=] is the inequality of strings. *)
Lemma filter_loose_ne_string (k : string) (l : list Notification) :
  filter (λ item, loose_ne (key item) (VStr k)) l = filter (λ item, key item ≠ k) l.
Proof.
  apply list_filter_iff. intros item. unfold loose_ne, loose_eq.
  destruct (String.eqb_spec (key item) k); cbn; naive_solver.
Qed.

Lemma reduce_remove T INIT_STATE now state k :
  tags_wf T →
  reducers T INIT_STATE now (Some state) (removeNotificationDescriptor T k) =
    Ok (with_app
          (set_notifications
             (filter (λ item, key item ≠ k) (App.notifications (app state))))
          state).
Proof.
  intros Hwf. unfold removeNotificationDescriptor. run_case Hwf NsNotification.
  cbv zeta. cbn [value]. unfold with_app. by rewrite filter_loose_ne_string.
Qed.

Lemma filter_fresh_key (k : string) (l : list Notification) :
  k ∉ key <$> l → filter (λ item, key item ≠ k) l = l.
Proof.
  induction l as [|n l IH]; [reflexivity|]. rewrite fmap_cons.
  intros [Hne Hl]%not_elem_of_cons.
  rewrite filter_cons_True by done. f_equal. by apply IH.
Qed.

(** Each of the four adding tags appends exactly one entry: its key is the
    rendering of the clock reading, its type is the label of the tag's [case]
    and its message is the payload, whatever the payload is.  The entries
    already queued keep their places. *)
Theorem notification_add_appends T INIT_STATE now state action ty :
  tags_wf T →
  (type action, ty) ∈ adding_cases T →
  ∃ state',
    reducers T INIT_STATE now (Some state) action = Ok state' ∧
    App.notifications (app state') =
      App.notifications (app state)
        ++ [mkNotification (pretty now) ty (value action)] ∧
    length (App.notifications (app state')) =
      S (length (App.notifications (app state))).
Proof.
  intros Hwf Hin. rewrite (reduce_add _ _ _ _ _ _ Hwf Hin).
  eexists. split; [reflexivity|]. cbn. split; [reflexivity|].
  rewrite length_app. cbn. lia.
Qed.

(** Dismissing by key: every entry with the key goes, however many there
    are; the entries with another key stay, in their order; when no entry has
    the key the queue is as before; and dismissing the same key again changes
    nothing. *)
Theorem notification_remove_filters T INIT_STATE now state k :
  tags_wf T →
  ∃ state',
    reducers T INIT_STATE now (Some state) (removeNotificationDescriptor T k)
      = Ok state' ∧
    App.notifications (app state') =
      filter (λ item, key item ≠ k) (App.notifications (app state)) ∧
    (k ∉ notification_keys state') ∧
    (k ∉ notification_keys state →
     App.notifications (app state') = App.notifications (app state)) ∧
    reducers T INIT_STATE now (Some state') (removeNotificationDescriptor T k)
      = Ok state'.
Proof.
  intros Hwf. rewrite (reduce_remove _ _ _ _ _ Hwf).
  eexists. split; [reflexivity|]. cbn. split; [reflexivity|]. split; [|split].
  - unfold notification_keys. cbn.
    intros (n & -> & [Hn _]%list_elem_of_filter)%list_elem_of_fmap. done.
  - apply filter_fresh_key.
  - rewrite (reduce_remove _ _ _ _ _ Hwf). unfold with_app, set_notifications; cbn.
    rewrite list_filter_filter. do 4 f_equal.
    apply list_filter_iff. tauto.
Qed.

(** Adding a notification and then dismissing it by its key: the entries
    that were queued under another key are what is left.  An older entry
    that has the same key (it was added at the same clock reading) is
    dismissed with it. *)
Theorem notification_add_then_remove T INIT_STATE now now' state action ty :
  tags_wf T →
  (type action, ty) ∈ adding_cases T →
  ∃ state',
    store_dispatch T INIT_STATE state
      [(now, action); (now', removeNotificationDescriptor T (pretty now))] = Ok state' ∧
    App.notifications (app state') =
      filter (λ item, key item ≠ pretty now) (App.notifications (app state)) ∧
    (pretty now ∉ notification_keys state →
     App.notifications (app state') = App.notifications (app state)).
Proof.
  intros Hwf Hin. cbn [store_dispatch].
  rewrite (reduce_add _ _ _ _ _ _ Hwf Hin). cbn.
  rewrite (reduce_remove _ _ _ _ _ Hwf). cbn.
  eexists. split; [reflexivity|]. cbn.
  rewrite filter_app, filter_cons_False, filter_nil, app_nil_r by (cbn; tauto).
  split; [reflexivity|]. apply filter_fresh_key.
Qed.

(** ** The slices no action writes *)

Lemma reducers_hid_storage T INIT_STATE now state action state' :
  reducers T INIT_STATE now (Some state) action = Ok state' →
  hid state' = hid state ∧ storage state' = storage state.
Proof.
  intros H. rewrite reducers_route in H. cbn [default] in H.
  destruct (route T (type action)) as [ns|]; [|injection H as <-; done].
  split.
  - apply (sub_reducer_writes _ _ _ _ _ _ H F_hid).
    destruct ns; apply (bool_decide_unpack _); exact I.
  - apply (sub_reducer_writes _ _ _ _ _ _ H F_storage).
    destruct ns; apply (bool_decide_unpack _); exact I.
Qed.

(** No sequence of actions, whatever their tags and payloads, changes the
    [hid] entry (the device API instance) or the [storage] entry of the
    state. *)
Theorem store_never_writes_hid_storage T INIT_STATE state log state' :
  store_dispatch T INIT_STATE state log = Ok state' →
  hid state' = hid state ∧ storage state' = storage state.
Proof.
  revert state. induction log as [|[now action] log IH]; intros state H.
  - cbn in H. injection H as <-. done.
  - cbn [store_dispatch] in H. apply bind_Ok in H as (state1 & Hstep & H).
    destruct (IH _ H) as [-> ->]. exact (reducers_hid_storage _ _ _ _ _ _ Hstep).
Qed.

(** ** Payloads of the [@Hid] actions *)

(** Each [case] of [hidReducer] starts by reading a property of the payload:
    with an [undefined] or [null] payload the reduction throws and yields no
    state, for every one of the six tags and every tag assignment. *)
Theorem hid_action_without_payload T INIT_STATE now state tag payload :
  tag ∈ hid_cases →
  payload = VUndefined ∨ payload = VNull →
  reducers T INIT_STATE now (Some state) (mkAction tag payload) = Throw TypeError.
Proof.
  intros Htag Hpayload. rewrite reducers_route. unfold hid_cases in Htag.
  repeat (apply elem_of_cons in Htag as [->|Htag];
          [destruct Hpayload as [-> | ->]; reflexivity|]).
  by apply elem_of_nil in Htag.
Qed.

(** ** Connecting and disconnecting in the reducer *)

Lemma reduce_connectKeyboard T INIT_STATE now state keyboard :
  reducers T INIT_STATE now (Some state) (hidActions.connectKeyboard keyboard) =
    Ok (with_entities
          (λ e, set_keyboards (Entities.keyboards e ++ [keyboard]) e) state).
Proof.
  rewrite reducers_route.
  change (route T (type (hidActions.connectKeyboard keyboard))) with (Some NsHid).
  reflexivity.
Qed.

Lemma reduce_disconnectKeyboard T INIT_STATE now state keyboard :
  reducers T INIT_STATE now (Some state) (hidActions.disconnectKeyboard keyboard) =
    Ok (if bool_decide (Entities.keyboard (entities state) = Some keyboard)
        then with_entities (set_keyboard None) state
        else state).
Proof.
  rewrite reducers_route.
  change (route T (type (hidActions.disconnectKeyboard keyboard))) with (Some NsHid).
  cbn [sub_reducer default]. apply hidReducer_disconnect.
Qed.

(** The connect action appends the handle to the known-keyboards collection
    without looking for it there, so a handle that is already listed is listed
    twice; the disconnect action that follows does not take it out again, it
    only clears the current handle when that is the disconnected one. *)
Theorem connect_then_disconnect_action T INIT_STATE now1 now2 state keyboard :
  ∃ state',
    store_dispatch T INIT_STATE state
      [(now1, hidActions.connectKeyboard keyboard);
       (now2, hidActions.disconnectKeyboard keyboard)] = Ok state' ∧
    Entities.keyboards (entities state') =
      Entities.keyboards (entities state) ++ [keyboard] ∧
    Entities.keyboard (entities state') =
      (if bool_decide (Entities.keyboard (entities state) = Some keyboard)
       then None else Entities.keyboard (entities state)).
Proof.
  cbn [store_dispatch]. rewrite reduce_connectKeyboard. cbn.
  rewrite reduce_disconnectKeyboard. cbn.
  eexists. split; [reflexivity|].
  destruct (bool_decide _); cbn; split; reflexivity.
Qed.

(** * Further properties of the workflows *)

(** ** How the store takes the remaining dispatches *)

Lemma as_keyboard_list_fmap ks : as_keyboard_list (VKeyboard <$> ks) = Ok ks.
Proof. induction ks as [|k ks IH]; cbn; [reflexivity|]. rewrite IH. reflexivity. Qed.

Lemma reduce_updateKeyboardList T INIT_STATE now state ks :
  reducers T INIT_STATE now (Some state) (hidActions.updateKeyboardList ks) =
    Ok (with_entities (set_keyboards ks) state).
Proof.
  rewrite reducers_route.
  change (route T (type (hidActions.updateKeyboardList ks))) with (Some NsHid).
  cbn [sub_reducer default]. unfold hidReducer, hidActions.updateKeyboardList. cbn.
  rewrite as_keyboard_list_fmap. reflexivity.
Qed.

Lemma reduce_updateKeyboardLayerCount T INIT_STATE now state N :
  reducers T INIT_STATE now (Some state) (hidActions.updateKeyboardLayerCount N) =
    Ok (with_entities (with_device (set_layerCount (VNum N))) state).
Proof.
  rewrite reducers_route.
  change (route T (type (hidActions.updateKeyboardLayerCount N))) with (Some NsHid).
  reflexivity.
Qed.

Lemma reduce_updateKeymaps T INIT_STATE now state keymaps :
  reducers T INIT_STATE now (Some state) (hidActions.updateKeymaps keymaps) =
    Ok (with_entities (with_device (set_keymaps (VArr keymaps))) state).
Proof.
  rewrite reducers_route.
  change (route T (type (hidActions.updateKeymaps keymaps))) with (Some NsHid).
  reflexivity.
Qed.

Lemma reduce_remapsInit T INIT_STATE now state N :
  tags_wf T →
  reducers T INIT_STATE now (Some state) (AppActions.remapsInit T N) =
    Ok (with_app (set_remaps (replicate (Z.to_nat N) ∅)) state).
Proof.
  intros Hwf. unfold AppActions.remapsInit. run_case Hwf NsApp. cbn.
  rewrite as_remap_layers_replicate. reflexivity.
Qed.

Lemma reduce_updateSelectedLayer T INIT_STATE now state layer :
  tags_wf T →
  reducers T INIT_STATE now (Some state) (KeyboardsActions.updateSelectedLayer T layer) =
    Ok (with_keyboards
          (λ k, Keyboards.mk (Keyboards.selectedPos k) (VNum layer)) state).
Proof.
  intros Hwf. unfold KeyboardsActions.updateSelectedLayer.
  run_case Hwf NsKeyboards. reflexivity.
Qed.

(** ** Connecting: the device picker is cancelled *)

(** When the device picker returns no device, [connectAnotherKeyboard]
    dispatches the transition to [keyboardNotSelected] and nothing else; in
    the store the phase changes and [entities] (the known keyboards, the
    current handle) stays as it is. *)
Theorem connect_not_selected T INIT_STATE E state now :
  tags_wf T →
  ConnectResult.success (connect E) = false →
  hidActionsThunk.connectAnotherKeyboard T E state =
    mkThunk [Plain (AppActions.updateSetupPhase T keyboardNotSelected)] (Ok ()) ∧
  ∃ state',
    store_after T INIT_STATE state [now]
      (hidActionsThunk.connectAnotherKeyboard T E state) = Ok state' ∧
    App.setupPhase (app state') = VPhase keyboardNotSelected ∧
    entities state' = entities state.
Proof.
  intros Hwf Hfail.
  assert (Hrun : hidActionsThunk.connectAnotherKeyboard T E state =
            mkThunk [Plain (AppActions.updateSetupPhase T keyboardNotSelected)] (Ok ())).
  { unfold hidActionsThunk.connectAnotherKeyboard. rewrite Hfail. reflexivity. }
  split; [exact Hrun|]. unfold store_after. rewrite Hrun. cbn.
  rewrite (reduce_updateSetupPhase _ _ _ _ _ Hwf). cbn.
  eexists. split; [reflexivity|]. split; reflexivity.
Qed.

(** ** Connecting a new device *)

(** The non-opened path of the two workflows, when no listed handle is the
    same device as the acquired one. *)
Lemma run_connect_new T E w state keyboard :
  acquires E w keyboard →
  isOpened E keyboard = false →
  (∀ kbd, kbd ∈ Entities.keyboards (entities state) →
          isSameDevice E kbd keyboard = false) →
  run_connect T E w state =
    mkThunk
      [ Plain (hidActions.updateKeyboardList
                 (Entities.keyboards (entities state) ++ [keyboard]));
        Plain (hidActions.updateKeyboard keyboard);
        Plain (AppActions.updateSetupPhase T fetchingKeyboardDefinition);
        FetchKeyboardDefinition (vendorId (getInformation E keyboard))
          (productId (getInformation E keyboard)) ]
      (Ok ()).
Proof.
  intros Hacq Hclosed Hnone.
  pose proof (find_is_None (λ kbd, isSameDevice E kbd keyboard) _ Hnone) as Hfind.
  destruct w as [|k]; cbn in Hacq |- *.
  - unfold hidActionsThunk.connectAnotherKeyboard. rewrite Hacq. cbn.
    rewrite Hclosed, Hfind. reflexivity.
  - subst k. unfold hidActionsThunk.connectKeyboard.
    rewrite Hclosed, Hfind. reflexivity.
Qed.

(** In either connect workflow, when the acquired handle is not opened and
    is the same device as no known keyboard, the workflow dispatches, in
    this order, the list update with the handle appended, the current-handle
    update with the handle, the transition to [fetchingKeyboardDefinition] and
    the definition fetch for the handle's vendor and product.  In the store
    the handle is the last known keyboard and the current handle. *)
Theorem connect_new_device T INIT_STATE E w state keyboard now1 now2 now3 :
  tags_wf T →
  acquires E w keyboard →
  isOpened E keyboard = false →
  (∀ kbd, kbd ∈ Entities.keyboards (entities state) →
          isSameDevice E kbd keyboard = false) →
  run_connect T E w state =
    mkThunk
      [ Plain (hidActions.updateKeyboardList
                 (Entities.keyboards (entities state) ++ [keyboard]));
        Plain (hidActions.updateKeyboard keyboard);
        Plain (AppActions.updateSetupPhase T fetchingKeyboardDefinition);
        FetchKeyboardDefinition (vendorId (getInformation E keyboard))
          (productId (getInformation E keyboard)) ]
      (Ok ()) ∧
  ∃ state',
    store_after T INIT_STATE state [now1; now2; now3] (run_connect T E w state)
      = Ok state' ∧
    Entities.keyboards (entities state') =
      Entities.keyboards (entities state) ++ [keyboard] ∧
    Entities.keyboard (entities state') = Some keyboard ∧
    App.setupPhase (app state') = VPhase fetchingKeyboardDefinition.
Proof.
  intros Hwf Hacq Hclosed Hnone.
  pose proof (run_connect_new T E w state keyboard Hacq Hclosed Hnone) as Hrun.
  split; [exact Hrun|]. unfold store_after. rewrite Hrun. cbn.
  rewrite reduce_updateKeyboardList. cbn.
  rewrite reduce_updateKeyboard. cbn.
  rewrite (reduce_updateSetupPhase _ _ _ _ _ Hwf). cbn.
  eexists. split; [reflexivity|]. repeat split.
Qed.

(** ** What connecting does to the known-keyboards collection *)

(** The dispatches of a connect workflow, path by path. *)
Lemma run_connect_cases T E w state :
  let known := Entities.keyboards (entities state) in
  let run := dispatched (run_connect T E w state) in
  run = []
  ∨ (∃ phase, run = [Plain (AppActions.updateSetupPhase T phase)])
  ∨ run = [Plain (NotificationActions.addWarn T already_opened_msg)]
  ∨ (∃ keyboard listed,
       run = [ Plain (hidActions.updateKeyboard listed);
               Plain (AppActions.updateSetupPhase T fetchingKeyboardDefinition);
               FetchKeyboardDefinition (vendorId (getInformation E keyboard))
                 (productId (getInformation E keyboard)) ])
  ∨ (∃ keyboard,
       acquires E w keyboard ∧ isOpened E keyboard = false ∧
       (∀ kbd, kbd ∈ known → isSameDevice E kbd keyboard = false) ∧
       run = [ Plain (hidActions.updateKeyboardList (known ++ [keyboard]));
               Plain (hidActions.updateKeyboard keyboard);
               Plain (AppActions.updateSetupPhase T fetchingKeyboardDefinition);
               FetchKeyboardDefinition (vendorId (getInformation E keyboard))
                 (productId (getInformation E keyboard)) ]).
Proof.
  intros known run.
  assert (Hpaths : ∀ keyboard, acquires E w keyboard →
            (isOpened E keyboard = true →
             run = [Plain (AppActions.updateSetupPhase T openedKeyboard)]
             ∨ run = [Plain (NotificationActions.addWarn T already_opened_msg)]) →
            run = []
            ∨ (∃ phase, run = [Plain (AppActions.updateSetupPhase T phase)])
            ∨ run = [Plain (NotificationActions.addWarn T already_opened_msg)]
            ∨ (∃ keyboard listed,
                 run = [ Plain (hidActions.updateKeyboard listed);
                         Plain (AppActions.updateSetupPhase T fetchingKeyboardDefinition);
                         FetchKeyboardDefinition (vendorId (getInformation E keyboard))
                           (productId (getInformation E keyboard)) ])
            ∨ (∃ keyboard,
                 acquires E w keyboard ∧ isOpened E keyboard = false ∧
                 (∀ kbd, kbd ∈ known → isSameDevice E kbd keyboard = false) ∧
                 run = [ Plain (hidActions.updateKeyboardList (known ++ [keyboard]));
                         Plain (hidActions.updateKeyboard keyboard);
                         Plain (AppActions.updateSetupPhase T fetchingKeyboardDefinition);
                         FetchKeyboardDefinition (vendorId (getInformation E keyboard))
                           (productId (getInformation E keyboard)) ])).
  { intros keyboard Hacq Hopened.
    destruct (isOpened E keyboard) eqn:Hopen.
    - destruct (Hopened eq_refl) as [-> | ->]; [right; left; by eexists | by do 2 right; left].
    - destruct (List.find (λ kbd, isSameDevice E kbd keyboard) known) as [listed|] eqn:Hfind.
      + do 3 right; left. exists keyboard, listed. unfold run.
        by rewrite (run_connect_listed T E w state keyboard listed Hacq Hopen Hfind).
      + do 4 right. exists keyboard.
        assert (Hnone : ∀ kbd, kbd ∈ known → isSameDevice E kbd keyboard = false).
        { intros kbd Hin%list_elem_of_In. exact (List.find_none _ _ Hfind kbd Hin). }
        split; [exact Hacq|]. split; [exact Hopen|]. split; [exact Hnone|].
        unfold run. by rewrite (run_connect_new T E w state keyboard Hacq Hopen Hnone). }
  destruct w as [|k].
  - destruct (connect E) as [success [keyboard|]] eqn:Hconnect.
    + destruct success.
      * apply (Hpaths keyboard); [exact Hconnect|]. intros Hopen. unfold run. cbn.
        unfold hidActionsThunk.connectAnotherKeyboard. rewrite Hconnect. cbn.
        rewrite Hopen. destruct (List.find _ _); [by left | by right].
      * right; left. eexists. unfold run. cbn.
        unfold hidActionsThunk.connectAnotherKeyboard. by rewrite Hconnect.
    + destruct success.
      * left. unfold run. cbn.
        unfold hidActionsThunk.connectAnotherKeyboard. by rewrite Hconnect.
      * right; left. eexists. unfold run. cbn.
        unfold hidActionsThunk.connectAnotherKeyboard. by rewrite Hconnect.
  - apply (Hpaths k); [reflexivity|]. intros Hopen. unfold run. cbn.
    unfold hidActionsThunk.connectKeyboard. rewrite Hopen.
    destruct (Entities.keyboard (entities state)) as [current|]; [|by right].
    destruct (isSameDevice E current k); [by left | by right].
Qed.

(** What a connect workflow leaves in the known-keyboards collection, however
    many of its dispatches the store has taken.  [snapshot] is what
    [getState()] returned at the start of the workflow, [current] the state of
    the store when the dispatches reach it. *)
Lemma connect_known_after_snapshot T INIT_STATE E w snapshot current clock state' :
  tags_wf T →
  store_after T INIT_STATE current clock (run_connect T E w snapshot) = Ok state' →
  Entities.keyboards (entities state') = Entities.keyboards (entities current)
  ∨ ∃ keyboard,
      acquires E w keyboard ∧ isOpened E keyboard = false ∧
      (∀ kbd, kbd ∈ Entities.keyboards (entities snapshot) →
              isSameDevice E kbd keyboard = false) ∧
      Entities.keyboards (entities state') =
        Entities.keyboards (entities snapshot) ++ [keyboard].
Proof.
  intros Hwf. unfold store_after.
  destruct (run_connect_cases T E w snapshot)
    as [-> | [[phase ->] | [-> | [(keyboard & listed & ->)
                                 | (keyboard & Hacq & Hclosed & Hnone & ->)]]]];
    cbn [plain_actions].
  - destruct clock; cbn; intros [= <-]; by left.
  - destruct clock as [|now clock]; cbn; [intros [= <-]; by left|].
    rewrite (reduce_updateSetupPhase _ _ _ _ _ Hwf), zip_with_nil_r. cbn.
    intros [= <-]. by left.
  - destruct clock as [|now clock]; cbn; [intros [= <-]; by left|].
    rewrite (reduce_addWarn _ _ _ _ _ Hwf), zip_with_nil_r. cbn.
    intros [= <-]. by left.
  - destruct clock as [|now1 [|now2 clock]]; cbn.
    + intros [= <-]; by left.
    + rewrite reduce_updateKeyboard. cbn. intros [= <-]. by left.
    + rewrite reduce_updateKeyboard. cbn.
      rewrite (reduce_updateSetupPhase _ _ _ _ _ Hwf), zip_with_nil_r. cbn.
      intros [= <-]. by left.
  - destruct clock as [|now1 [|now2 [|now3 clock]]]; cbn.
    + intros [= <-]; by left.
    + rewrite reduce_updateKeyboardList. cbn. intros [= <-]. right. by exists keyboard.
    + rewrite reduce_updateKeyboardList. cbn. rewrite reduce_updateKeyboard. cbn.
      intros [= <-]. right. by exists keyboard.
    + rewrite reduce_updateKeyboardList. cbn. rewrite reduce_updateKeyboard. cbn.
      rewrite (reduce_updateSetupPhase _ _ _ _ _ Hwf), zip_with_nil_r. cbn.
      intros [= <-]. right. by exists keyboard.
Qed.

(** The same, when the store has not changed since the workflow read it. *)
Lemma connect_known_after T INIT_STATE E w state clock state' :
  tags_wf T →
  store_after T INIT_STATE state clock (run_connect T E w state) = Ok state' →
  Entities.keyboards (entities state') = Entities.keyboards (entities state)
  ∨ ∃ keyboard,
      acquires E w keyboard ∧ isOpened E keyboard = false ∧
      (∀ kbd, kbd ∈ Entities.keyboards (entities state) →
              isSameDevice E kbd keyboard = false) ∧
      Entities.keyboards (entities state') =
        Entities.keyboards (entities state) ++ [keyboard].
Proof. apply connect_known_after_snapshot. Qed.

(** A connect workflow reads the known-keyboards collection once, at its
    start ([snapshot]); [connectAnotherKeyboard] then awaits the device
    picker, and the store ([current]) may have changed when the dispatches
    reach it.  Whatever the device answers, the collection afterwards is the
    store's own, untouched, or the collection read at the start with the
    acquired, non-opened handle appended.  The list update assigns the whole
    collection: a keyboard that entered the store since the start is then no
    longer known; when the store has not changed, no known keyboard is
    removed or reordered. *)
Theorem connect_assigns_snapshot T INIT_STATE E w snapshot current clock state' :
  tags_wf T →
  store_after T INIT_STATE current clock (run_connect T E w snapshot) = Ok state' →
  Entities.keyboards (entities state') = Entities.keyboards (entities current)
  ∨ ∃ keyboard,
      acquires E w keyboard ∧ isOpened E keyboard = false ∧
      Entities.keyboards (entities state') =
        Entities.keyboards (entities snapshot) ++ [keyboard].
Proof.
  intros Hwf H'.
  destruct (connect_known_after_snapshot _ _ _ _ _ _ _ _ Hwf H')
    as [Hsame | (keyboard & Hacq & Hclosed & _ & Happ)]; [by left|].
  right. by exists keyboard.
Qed.

(** When no known keyboard is the same device as one listed after it, this
    is still so after a connect workflow: the workflow appends a handle only
    when no known keyboard is the same device as it. *)
Theorem connect_keeps_devices_distinct T INIT_STATE E w state clock state' :
  tags_wf T →
  distinct_devices E (Entities.keyboards (entities state)) →
  store_after T INIT_STATE state clock (run_connect T E w state) = Ok state' →
  distinct_devices E (Entities.keyboards (entities state')).
Proof.
  intros Hwf Hdistinct H.
  destruct (connect_known_after _ _ _ _ _ _ _ Hwf H)
    as [-> | (keyboard & _ & _ & Hnone & ->)]; [exact Hdistinct|].
  intros i j a b Hij Ha Hb.
  destruct (decide (j < length (Entities.keyboards (entities state)))%nat) as [Hj|Hj].
  - rewrite lookup_app_l in Ha, Hb by lia. by apply (Hdistinct i j).
  - assert (Hi : (i < length (Entities.keyboards (entities state)))%nat).
    { apply lookup_lt_Some in Hb. rewrite length_app in Hb. cbn in Hb. lia. }
    rewrite lookup_app_l in Ha by lia.
    rewrite lookup_app_r in Hb by lia.
    apply list_lookup_singleton_Some in Hb as [_ <-].
    apply Hnone. by eapply list_elem_of_lookup_2.
Qed.

(** ** Refreshing the authorized devices *)

(** [updateAuthorizedKeyboardList] always dispatches exactly one list update,
    also when no device is detected.  In the store the known-keyboards
    collection becomes the detected list (nothing of the old list is kept),
    the current handle is left as it is, even when it is no longer listed,
    and running the workflow again on the result changes nothing. *)
Theorem updateAuthorizedKeyboardList_replaces T INIT_STATE E state now now' :
  hidActionsThunk.updateAuthorizedKeyboardList E state =
    mkThunk [Plain (hidActions.updateKeyboardList (detectKeyboards E))] (Ok ()) ∧
  ∃ state',
    store_after T INIT_STATE state [now]
      (hidActionsThunk.updateAuthorizedKeyboardList E state) = Ok state' ∧
    Entities.keyboards (entities state') = detectKeyboards E ∧
    Entities.keyboard (entities state') = Entities.keyboard (entities state) ∧
    store_after T INIT_STATE state' [now']
      (hidActionsThunk.updateAuthorizedKeyboardList E state') = Ok state'.
Proof.
  split; [reflexivity|]. unfold store_after. cbn.
  rewrite reduce_updateKeyboardList. cbn.
  eexists. split; [reflexivity|]. cbn. split; [reflexivity|]. split; [reflexivity|].
  rewrite reduce_updateKeyboardList. reflexivity.
Qed.

(** ** Opening a keyboard: the outcomes *)

(** When [open] fails, [openKeyboard] dispatches one error notification and
    nothing else; in the store the error is appended to the queue and the
    phase and [entities] stay as they are. *)
Theorem openKeyboard_open_fails T INIT_STATE E state keyboard now :
  tags_wf T →
  Entities.keyboard (entities state) = Some keyboard →
  OpenResult.success (open E keyboard) = false →
  hidActionsThunk.openKeyboard T E state =
    mkThunk [Plain (NotificationActions.addError T "Could not open")] (Ok ()) ∧
  ∃ state',
    store_after T INIT_STATE state [now] (hidActionsThunk.openKeyboard T E state)
      = Ok state' ∧
    App.notifications (app state') =
      App.notifications (app state)
        ++ [mkNotification (pretty now) "error" (VStr "Could not open")] ∧
    App.setupPhase (app state') = App.setupPhase (app state) ∧
    entities state' = entities state.
Proof.
  intros Hwf Hk Hfail.
  assert (Hrun : hidActionsThunk.openKeyboard T E state =
            mkThunk [Plain (NotificationActions.addError T "Could not open")] (Ok ())).
  { unfold hidActionsThunk.openKeyboard. rewrite Hk. cbn. rewrite Hfail. reflexivity. }
  split; [exact Hrun|]. unfold store_after. rewrite Hrun. cbn.
  rewrite (reduce_add T INIT_STATE now state _ "error" Hwf)
    by (apply (list_elem_of_lookup_2 _ 0%nat); reflexivity).
  cbn. eexists. split; [reflexivity|]. repeat split.
Qed.

(** [openKeyboard] throws without a single dispatch when there is no current
    handle, and also when [open] has succeeded but the keyboard definition has
    no [matrix] to read the dimensions from: the device is then left opened
    while the state records nothing of it. *)
Theorem openKeyboard_throws T E state :
  Entities.keyboard (entities state) = None
  ∨ (∃ keyboard,
       Entities.keyboard (entities state) = Some keyboard ∧
       OpenResult.success (open E keyboard) = true ∧
       no_matrix (Entities.keyboardDefinition (entities state))) →
  hidActionsThunk.openKeyboard T E state = mkThunk [] (Throw TypeError).
Proof.
  unfold hidActionsThunk.openKeyboard.
  intros [-> | (keyboard & -> & Hopen & Hno)]; [reflexivity|].
  cbn. rewrite Hopen. cbn.
  destruct Hno as [-> | [-> | [-> | ->]]]; reflexivity.
Qed.

(** A successful [openKeyboard], end to end.  [open] succeeds, the device
    reports [N] layers and hands back every keymap: the workflow makes six
    dispatches, and in the store the device's layer count is [N], its
    keymaps are the fetched ones in layer order, the remap table has [N]
    empty layers, the selected layer is 0, the opened keyboard is the current
    handle and the phase is [openedKeyboard]; the known-keyboards collection
    and the notification queue are as before. *)
Theorem openKeyboard_success T INIT_STATE E state keyboard matrix rows cols N clock :
  tags_wf T →
  Entities.keyboard (entities state) = Some keyboard →
  OpenResult.success (open E keyboard) = true →
  get (Entities.keyboardDefinition (entities state)) "matrix" = Ok matrix →
  get matrix "rows" = Ok rows →
  get matrix "cols" = Ok cols →
  fetchLayerCount E keyboard = LayerCountResult.mk true (Some N) →
  (∀ i, 0 ≤ i < N →
        KeymapsResult.success (fetchKeymaps E keyboard i rows cols) = true) →
  length clock = 6%nat →
  length (dispatched (hidActionsThunk.openKeyboard T E state)) = 6%nat ∧
  outcome (hidActionsThunk.openKeyboard T E state) = Ok () ∧
  ∃ state',
    store_after T INIT_STATE state clock (hidActionsThunk.openKeyboard T E state)
      = Ok state' ∧
    Device.layerCount (Entities.device (entities state')) = VNum N ∧
    Device.keymaps (Entities.device (entities state')) =
      VArr (fetched E keyboard rows cols <$> seqZ 0 N) ∧
    App.remaps (app state') = replicate (Z.to_nat N) ∅ ∧
    Keyboards.selectedLayer (keyboards state') = VNum 0 ∧
    Entities.keyboard (entities state') = Some keyboard ∧
    App.setupPhase (app state') = VPhase openedKeyboard ∧
    Entities.keyboards (entities state') = Entities.keyboards (entities state) ∧
    App.notifications (app state') = App.notifications (app state).
Proof.
  intros Hwf Hk Hopen Hm Hr Hc Hcount Hok Hclock.
  assert (Hrun : hidActionsThunk.openKeyboard T E state =
            mkThunk
              [ Plain (hidActions.updateKeyboardLayerCount N);
                Plain (hidActions.updateKeymaps
                         (fetched E keyboard rows cols <$> seqZ 0 N));
                Plain (AppActions.remapsInit T N);
                Plain (KeyboardsActions.updateSelectedLayer T 0);
                Plain (hidActions.updateKeyboard keyboard);
                Plain (AppActions.updateSetupPhase T openedKeyboard) ]
              (Ok ())).
  { unfold hidActionsThunk.openKeyboard. rewrite Hk. cbn. rewrite Hopen. cbn.
    rewrite Hm. cbn. rewrite Hr. cbn. rewrite Hc. cbn.
    unfold initOpenedKeyboard. rewrite Hcount. cbn.
    rewrite (fetch_loop_all_ok E keyboard rows cols N _ 0 [] eq_refl Hok).
    cbn. rewrite Z.sub_0_r. reflexivity. }
  rewrite Hrun. split; [reflexivity|]. split; [reflexivity|].
  destruct clock as [|n1 [|n2 [|n3 [|n4 [|n5 [|n6 [|n7 clock]]]]]]]; try discriminate.
  unfold store_after. cbn.
  rewrite reduce_updateKeyboardLayerCount. cbn.
  rewrite reduce_updateKeymaps. cbn.
  rewrite (reduce_remapsInit _ _ _ _ _ Hwf). cbn.
  rewrite (reduce_updateSelectedLayer _ _ _ _ _ Hwf). cbn.
  rewrite reduce_updateKeyboard. cbn.
  rewrite (reduce_updateSetupPhase _ _ _ _ _ Hwf). cbn.
  eexists. split; [reflexivity|]. repeat split.
Qed.

(** ** Session initialization: all or nothing *)

(** Whether some fetch of the layers [i], ..., [N - 1] fails can be told from
    the device's answers. *)
Lemma fetch_all_or_some_fails E k r c N :
  (∀ j, 0 ≤ j < N → KeymapsResult.success (fetchKeymaps E k j r c) = true)
  ∨ (∃ j, 0 ≤ j < N ∧ KeymapsResult.success (fetchKeymaps E k j r c) = false).
Proof.
  destruct (decide (Forall (λ j, KeymapsResult.success (fetchKeymaps E k j r c) = true)
                      (seqZ 0 N))) as [Hall|Hsome].
  - left. intros j Hj. rewrite Forall_forall in Hall. apply Hall.
    apply elem_of_seqZ. lia.
  - right. apply (not_Forall_Exists _), Exists_exists in Hsome.
    destruct Hsome as (j & Hin%elem_of_seqZ & Hj).
    exists j. split; [lia|]. cbn in Hj. by destruct (KeymapsResult.success _).
Qed.

(** Whatever the device answers, [initOpenedKeyboard] ends normally and
    dispatches either nothing or its five updates, never a part of them.
    Nothing when a fetch fails (the function returns).  All five, in order,
    when the layer count and every layer's keymap are fetched; and all five
    as well when the successful answer to [fetchLayerCount] has no layer
    count: the count is [undefined], no layer is fetched, and the updates go
    out with [undefined] as the layer count and an empty keymap array. *)
Theorem initOpenedKeyboard_all_or_nothing T E keyboard rowCount columnCount :
  (fetch_fails E keyboard rowCount columnCount ∧
   initOpenedKeyboard T E keyboard rowCount columnCount = mkThunk [] (Ok ()))
  ∨ (fetchLayerCount E keyboard = LayerCountResult.mk true None ∧
     initOpenedKeyboard T E keyboard rowCount columnCount =
       mkThunk
         [ Plain (mkAction HID_UPDATE_KEYBOARD_LAYER_COUNT
                    (VObj [("layerCount", VUndefined)]));
           Plain (mkAction HID_UPDATE_KEYMAPS (VObj [("keymaps", VArr [])]));
           Plain (AppActions.remapsInitUndefined T);
           Plain (mkAction (KEYBOARDS_UPDATE_SELECTED_LAYER T) (VNum 0));
           Plain (mkAction HID_UPDATE_KEYBOARD
                    (VObj [("keyboard", VKeyboard keyboard)])) ]
         (Ok ()))
  ∨ (∃ N,
       fetchLayerCount E keyboard = LayerCountResult.mk true (Some N) ∧
       (∀ i, 0 ≤ i < N →
             KeymapsResult.success (fetchKeymaps E keyboard i rowCount columnCount)
               = true) ∧
       initOpenedKeyboard T E keyboard rowCount columnCount =
         mkThunk
           [ Plain (mkAction HID_UPDATE_KEYBOARD_LAYER_COUNT
                      (VObj [("layerCount", VNum N)]));
             Plain (mkAction HID_UPDATE_KEYMAPS
                      (VObj [("keymaps",
                              VArr (fetched E keyboard rowCount columnCount
                                      <$> seqZ 0 N))]));
             Plain (mkAction (APP_REMAPS_INIT T)
                      (VArr (replicate (Z.to_nat N) (VObj []))));
             Plain (mkAction (KEYBOARDS_UPDATE_SELECTED_LAYER T) (VNum 0));
             Plain (mkAction HID_UPDATE_KEYBOARD
                      (VObj [("keyboard", VKeyboard keyboard)])) ]
           (Ok ())).
Proof.
  destruct (fetchLayerCount E keyboard) as [[|] [N|]] eqn:Hcount.
  - destruct (fetch_all_or_some_fails E keyboard rowCount columnCount N)
      as [Hok | (j & Hj & Hfail)].
    + do 2 right. exists N. split; [reflexivity|]. split; [exact Hok|].
      unfold initOpenedKeyboard. rewrite Hcount. cbn.
      rewrite (fetch_loop_all_ok E keyboard rowCount columnCount N _ 0 [] eq_refl Hok).
      cbn. rewrite Z.sub_0_r. reflexivity.
    + left.
      assert (Hfails : fetch_fails E keyboard rowCount columnCount).
      { right. exists N, j. by rewrite Hcount. }
      split; [exact Hfails|]. by apply initOpenedKeyboard_fetch_fails.
  - right; left. split; [reflexivity|].
    unfold initOpenedKeyboard. rewrite Hcount. reflexivity.
  - left.
    assert (Hfails : fetch_fails E keyboard rowCount columnCount)
      by (left; by rewrite Hcount).
    split; [exact Hfails|]. by apply initOpenedKeyboard_fetch_fails.
  - left.
    assert (Hfails : fetch_fails E keyboard rowCount columnCount)
      by (left; by rewrite Hcount).
    split; [exact Hfails|]. by apply initOpenedKeyboard_fetch_fails.
Qed.


(** * The BMP keycode table *)

(** The codes of the table are the 32 consecutive numbers from 24064, in
    table order, so no two entries share a code; no two entries share a name
    either, the long and the short name of every entry are the same, and no
    entry has keywords. *)
Theorem bmpKeyInfoList_codes_and_names :
  (λ e, KeycodeInfo.code (keycodeInfo e)) <$> bmpKeyInfoList = seqZ 24064 32 ∧
  NoDup ((λ e, KeycodeInfo.code (keycodeInfo e)) <$> bmpKeyInfoList) ∧
  NoDup ((λ e, KeycodeInfo.long (KeycodeInfo.name (keycodeInfo e))) <$> bmpKeyInfoList) ∧
  Forall (λ e, KeycodeInfo.long (KeycodeInfo.name (keycodeInfo e)) =
               KeycodeInfo.short (KeycodeInfo.name (keycodeInfo e)) ∧
               KeycodeInfo.keywords (keycodeInfo e) = [])
    bmpKeyInfoList.
Proof.
  split; [vm_compute; reflexivity|].
  split; [apply (bool_decide_unpack _); vm_compute; exact I|].
  split; [apply (bool_decide_unpack _); vm_compute; exact I|].
  apply (bool_decide_unpack _). vm_compute. exact I.
Qed.

(** The labels do not identify the entries: the entries for codes 24064,
    24092 and 24093 (disable BLE sending, save and delete the EEPROM
    emulation) all carry the label [BLE DIS].  Every other entry is labelled
    by its name with the underscores turned into spaces. *)
Theorem bmpKeyInfoList_labels :
  (λ e, KeycodeInfo.code (keycodeInfo e))
    <$> filter (λ e, KeycodeInfo.label (keycodeInfo e) = "BLE DIS") bmpKeyInfoList
  = [24064; 24092; 24093] ∧
  Forall (λ e, KeycodeInfo.code (keycodeInfo e) ∉ [24092; 24093] →
               KeycodeInfo.label (keycodeInfo e) =
               underscores_to_spaces (KeycodeInfo.long (KeycodeInfo.name (keycodeInfo e))))
    bmpKeyInfoList.
Proof.
  split; [vm_compute; reflexivity|].
  apply (bool_decide_unpack _). vm_compute. exact I.
Qed.

(** * The definition form *)

(** Whenever the submit-for-review button is enabled, the save-as-draft
    button is enabled too, and the agreement is given and the contact
    information is filled in, whatever the firmware-place predicates
    answer. *)
Theorem submit_enabled_implies_draft_enabled isQmk isForked isOther props :
  CreateDefinition.submitForReviewDisabled isQmk isForked isOther props = false →
  CreateDefinition.saveAsDraftDisabled props = false ∧
  truthy (CreateDefinition.agreement props) = true ∧
  truthy (CreateDefinition.contactInformation props) = true.
Proof.
  unfold CreateDefinition.submitForReviewDisabled, CreateDefinition.saveAsDraftDisabled,
    CreateDefinition.isFilledInAllFieldAndAgreed, CreateDefinition.isFilledInAllField.
  destruct (truthy (CreateDefinition.productName props)); cbn; [|discriminate].
  destruct (truthy (CreateDefinition.keyboardDefinition props)); cbn; [|discriminate].
  destruct (truthy (CreateDefinition.contactInformation props)); cbn; [|discriminate].
  destruct (truthy (CreateDefinition.agreement props)) eqn:Hagreed; cbn;
    [done | by rewrite Hagreed].
Qed.

(** When the firmware code place is none of the three kinds (nothing is
    chosen yet, say), the submit-for-review button stays disabled, however
    completely the rest of the form is filled in. *)
Theorem submit_disabled_without_place isQmk isForked isOther props :
  isQmk (CreateDefinition.firmwareCodePlace props) = false →
  isForked (CreateDefinition.firmwareCodePlace props) = false →
  isOther (CreateDefinition.firmwareCodePlace props) = false →
  CreateDefinition.submitForReviewDisabled isQmk isForked isOther props = true.
Proof.
  intros Hq Hf Ho.
  unfold CreateDefinition.submitForReviewDisabled,
    CreateDefinition.isFilledInAllFieldAndAgreed.
  rewrite Hq, Hf, Ho.
  destruct (truthy (CreateDefinition.productName props)); cbn; [|reflexivity].
  destruct (truthy (CreateDefinition.keyboardDefinition props)); cbn; [|reflexivity].
  destruct (truthy (CreateDefinition.contactInformation props)); cbn; [|reflexivity].
  destruct (truthy (CreateDefinition.agreement props)) eqn:Hagreed; cbn;
    [reflexivity | by rewrite Hagreed].
Qed.

Lemma session_submit_inv state clicks state' called :
  CreateDefinition.session state clicks = (state', called) →
  CreateDefinition.submitForReview ∈ called →
  CreateDefinition.isSaveAsDraft state = false
  ∨ CreateDefinition.SubmitForReviewButton ∈ clicks.
Proof.
  revert state state' called.
  induction clicks as [|click clicks IH]; intros state state' called H Hin.
  - cbn in H. injection H as <- <-. by apply elem_of_nil in Hin.
  - cbn [CreateDefinition.session] in H.
    destruct (CreateDefinition.handle click state) as [state1 called1] eqn:Hclick.
    destruct (CreateDefinition.session state1 clicks) as [state2 called2] eqn:Hrest.
    injection H as <- <-.
    apply elem_of_app in Hin as [Hin | Hin].
    + destruct click; cbn in Hclick; injection Hclick as <- <-.
      * apply list_elem_of_singleton in Hin. discriminate.
      * by apply elem_of_nil in Hin.
      * by apply elem_of_nil in Hin.
      * destruct (CreateDefinition.isSaveAsDraft state); [|by left].
        apply list_elem_of_singleton in Hin. discriminate.
      * by apply elem_of_nil in Hin.
    + destruct (IH _ _ _ Hrest Hin) as [Hdraft | Hclicked]; [|right; by right].
      destruct click; cbn in Hclick; injection Hclick as <- <-; cbn in Hdraft;
        first [discriminate | by left | right; left].
Qed.

(** In a session of clicks that starts from the state the constructor sets,
    [submitForReview] is invoked only if the submit-for-review button was
    clicked; and every confirmation invokes exactly one of [saveAsDraft] and
    [submitForReview], so these are invoked as many times as the confirm
    button is clicked and never by another click. *)
Theorem session_submits_only_on_request clicks state' called :
  CreateDefinition.session CreateDefinition.initialState clicks = (state', called) →
  (CreateDefinition.submitForReview ∈ called →
   CreateDefinition.SubmitForReviewButton ∈ clicks) ∧
  length (filter (λ c, c ≠ CreateDefinition.backToList) called) =
    length (filter (λ c, c = CreateDefinition.ConfirmYes) clicks).
Proof.
  intros H. split.
  - intros Hin. destruct (session_submit_inv _ _ _ _ H Hin) as [Hdraft|]; [|done].
    discriminate.
  - revert H. generalize CreateDefinition.initialState. revert state' called.
    induction clicks as [|click clicks IH]; intros state' called state H.
    + cbn in H. injection H as <- <-. reflexivity.
    + cbn [CreateDefinition.session] in H.
      destruct (CreateDefinition.handle click state) as [state1 called1] eqn:Hclick.
      destruct (CreateDefinition.session state1 clicks) as [state2 called2] eqn:Hrest.
      injection H as <- <-. rewrite filter_app, length_app, (IH _ _ _ Hrest).
      destruct click; cbn in Hclick; injection Hclick as <- <-;
        try destruct (CreateDefinition.isSaveAsDraft state); reflexivity.
Qed.

End Properties.

(** * Runs on concrete data *)

(** The runs are on [sampleHost]. *)
Existing Instance sampleHost.

Lemma reducers_unmatched_tag_witness :
  reducers sampleTags sampleState 0 (Some sampleState)
    (mkAction HID_OPEN_KEYBOARD (VObj [("keyboard", VKeyboard (KeyboardRef 1))]))
  = Ok sampleState.
Proof.
  apply reducers_unmatched_tag.
  apply (bool_decide_unpack _). vm_compute. exact I.
Defined.

Lemma reducers_write_sets_witness :
  same_field F_app_notifications sampleState
    (with_entities (set_keyboard (Some (KeyboardRef 1))) sampleState).
Proof.
  apply (reducers_write_sets sampleTags sampleState 0 sampleState
           (hidActions.updateKeyboard (KeyboardRef 1)) _ NsHid).
  - reflexivity.
  - reflexivity.
  - apply (bool_decide_unpack _). vm_compute. exact I.
Defined.

(** C3, as stated, fails: whichever entry of the state tree is taken as the
    slice of each namespace, some action changes an entry outside the slice of
    its namespace.  The keycodes sub-reducer writes [keycodes.category] for
    one tag and [entities.device.macros] for another. *)
Lemma slice_confined_counterexample :
  ¬ ∃ own : Namespace → Slice, slice_confined sampleTags sampleState own.
Proof.
  intros [own H].
  pose (a1 := mkAction (KEYCODES_UPDATE_CATEGORY sampleTags) (VStr "Basic")).
  pose (a2 := mkAction (KEYCODES_UPDATE_MACRO sampleTags)
                (VObj [("code", VNum 1); ("text", VStr "m")])).
  destruct (decide (S_keycodes = own NsKeycodes)) as [Heq|Hne].
  - assert (Hent : S_entities ≠ own NsKeycodes) by (rewrite <- Heq; discriminate).
    specialize (H 0 sampleState a2 _ NsKeycodes eq_refl eq_refl _ Hent).
    cbn in H. apply (f_equal Entities.device) in H. apply (f_equal Device.macros) in H.
    cbn in H. apply (f_equal (λ m : gmap Z Value, m !! 1)) in H.
    rewrite lookup_insert_eq, lookup_empty in H. discriminate.
  - specialize (H 0 sampleState a1 _ NsKeycodes eq_refl eq_refl _ Hne).
    cbn in H. discriminate.
Qed.

(** C4, as stated, fails: the same state and the same warning, reduced at
    two clock readings, give two different states (the keys of the new
    entries differ). *)
Lemma reducers_clock_counterexample :
  reducers sampleTags sampleState 1000 (Some sampleState)
    (NotificationActions.addWarn sampleTags "low battery")
  ≠ reducers sampleTags sampleState 1001 (Some sampleState)
      (NotificationActions.addWarn sampleTags "low battery").
Proof. vm_compute. discriminate. Qed.

Lemma reducers_deterministic_off_clock_witness :
  reducers sampleTags sampleState 1000 (Some sampleState)
    (hidActions.connectKeyboard (KeyboardRef 1))
  = reducers sampleTags sampleState 1001 (Some sampleState)
      (hidActions.connectKeyboard (KeyboardRef 1)).
Proof.
  apply reducers_deterministic_off_clock.
  apply (bool_decide_unpack _). vm_compute. exact I.
Defined.

(** C5, as stated, fails: two notifications added at the same clock reading
    share their key. *)
Lemma notification_keys_counterexample :
  ∃ state',
    store_dispatch sampleTags sampleState sampleState
      [(1000, NotificationActions.addWarn sampleTags "first");
       (1000, NotificationActions.addError sampleTags "second")] = Ok state' ∧
    NoDup (notification_keys sampleState) ∧
    ¬ NoDup (notification_keys state').
Proof.
  eexists. split; [vm_compute; reflexivity|]. split; [constructor|].
  vm_compute. intros [Hn _]%NoDup_cons. apply Hn. left.
Qed.

Lemma notifications_keyed_and_dismissed_witness :
  ∃ state',
    store_dispatch sampleTags sampleState sampleStateWarned sampleDismissLog
      = Ok state' ∧
    NoDup (notification_keys state') ∧
    ∃ now action, (now, action) ∈ sampleDismissLog ∧
      type action = NOTIFICATION_REMOVE sampleTags ∧
      loose_eq "999" (value action) = true ∧
      (∀ k, value action = VStr k → k = "999").
Proof.
  eexists. split; [vm_compute; reflexivity|].
  destruct (notifications_keyed_and_dismissed sampleTags sampleState
              sampleStateWarned sampleDismissLog _ eq_refl) as [Hkeys Hgone].
  split.
  - apply Hkeys.
    + apply (bool_decide_unpack _). vm_compute. exact I.
    + apply (bool_decide_unpack _). vm_compute. exact I.
    + intros now Hnow. change (now ∈ [1000]) in Hnow.
      apply list_elem_of_singleton in Hnow as ->.
      apply (bool_decide_unpack _); vm_compute; exact I.
  - apply (Hgone (mkNotification "999" "warning" (VStr "first"))).
    + left.
    + vm_compute. intros Hin%list_elem_of_singleton. discriminate.
Defined.

Lemma initOpenedKeyboard_success_witness :
  ∃ keymaps,
    initOpenedKeyboard sampleTags twoLayerEnv (KeyboardRef 1) (VNum 4) (VNum 12) =
      mkThunk
        [ Plain (mkAction HID_UPDATE_KEYBOARD_LAYER_COUNT
                   (VObj [("layerCount", VNum 2)]));
          Plain (mkAction HID_UPDATE_KEYMAPS (VObj [("keymaps", VArr keymaps)]));
          Plain (mkAction (APP_REMAPS_INIT sampleTags) (VArr [VObj []; VObj []]));
          Plain (mkAction (KEYBOARDS_UPDATE_SELECTED_LAYER sampleTags) (VNum 0));
          Plain (mkAction HID_UPDATE_KEYBOARD
                   (VObj [("keyboard", VKeyboard (KeyboardRef 1))])) ]
        (Ok ()) ∧
    length keymaps = 2%nat ∧
    (∀ i, 0 ≤ i < 2 →
          keymaps !! Z.to_nat i =
            Some (KeymapsResult.keymap
                    (fetchKeymaps twoLayerEnv (KeyboardRef 1) i (VNum 4) (VNum 12)))).
Proof.
  apply (initOpenedKeyboard_success sampleTags twoLayerEnv (KeyboardRef 1)
           (VNum 4) (VNum 12) 2).
  - reflexivity.
  - intros i Hi. reflexivity.
Defined.

(** C1, at a failing input.  Keyboard 1 is the current handle, [open]
    succeeds and [fetchLayerCount] fails.  The initialization dispatches
    none of its five updates, yet [openKeyboard] goes on to dispatch the
    transition to [openedKeyboard], and the store takes it: the phase becomes
    [openedKeyboard] although nothing was fetched. *)
Theorem openKeyboard_failed_fetch_transitions :
  fetch_fails failingEnv (KeyboardRef 1) (VNum 4) (VNum 12) ∧
  initOpenedKeyboard sampleTags failingEnv (KeyboardRef 1) (VNum 4) (VNum 12) =
    mkThunk [] (Ok ()) ∧
  hidActionsThunk.openKeyboard sampleTags failingEnv sampleStateSelected =
    mkThunk [Plain (AppActions.updateSetupPhase sampleTags openedKeyboard)] (Ok ()) ∧
  App.setupPhase (app sampleStateSelected) = VPhase idle ∧
  ∃ state',
    store_dispatch sampleTags sampleState sampleStateSelected
      [(1000, AppActions.updateSetupPhase sampleTags openedKeyboard)] = Ok state' ∧
    App.setupPhase (app state') = VPhase openedKeyboard.
Proof.
  assert (Hfail : fetch_fails failingEnv (KeyboardRef 1) (VNum 4) (VNum 12))
    by (left; reflexivity).
  split; [exact Hfail|]. split; [by apply initOpenedKeyboard_fetch_fails|].
  split; [|split; [reflexivity|]].
  - by eapply openKeyboard_fetch_fails.
  - eexists. split; [vm_compute; reflexivity | reflexivity].
Qed.

Lemma connect_opened_known_witness :
  run_connect sampleTags twinOpenedEnv ViaPicker sampleStateTwoKnown =
    mkThunk [Plain (AppActions.updateSetupPhase sampleTags openedKeyboard)] (Ok ()) ∧
  ∃ state',
    store_after sampleTags sampleState sampleStateTwoKnown [1000]
      (run_connect sampleTags twinOpenedEnv ViaPicker sampleStateTwoKnown) = Ok state' ∧
    App.setupPhase (app state') = VPhase openedKeyboard ∧
    Entities.keyboards (entities state') = [KeyboardRef 1; KeyboardRef 2] ∧
    entities state' = entities sampleStateTwoKnown.
Proof.
  apply (connect_opened_known sampleTags sampleState twinOpenedEnv ViaPicker
           sampleStateTwoKnown (KeyboardRef 3) 1000).
  - exact sampleTags_wf.
  - reflexivity.
  - reflexivity.
  - exists (KeyboardRef 2). split; [|reflexivity].
    apply (bool_decide_unpack _). vm_compute. exact I.
Defined.

Lemma connect_opened_unknown_witness :
  run_connect sampleTags strangerEnv (ViaHandle (KeyboardRef 3)) sampleStateTwoKnown =
    mkThunk [Plain (NotificationActions.addWarn sampleTags already_opened_msg)] (Ok ()) ∧
  ∃ state',
    store_after sampleTags sampleState sampleStateTwoKnown [1000]
      (run_connect sampleTags strangerEnv (ViaHandle (KeyboardRef 3))
         sampleStateTwoKnown) = Ok state' ∧
    App.notifications (app state') =
      [mkNotification "1000" "warning" (VStr already_opened_msg)] ∧
    Entities.keyboards (entities state') = [KeyboardRef 1; KeyboardRef 2] ∧
    Entities.keyboard (entities state') = Some (KeyboardRef 1) ∧
    App.setupPhase (app state') = VPhase idle.
Proof.
  apply (connect_opened_unknown sampleTags sampleState strangerEnv
           (ViaHandle (KeyboardRef 3)) sampleStateTwoKnown (KeyboardRef 3) 1000).
  - exact sampleTags_wf.
  - reflexivity.
  - reflexivity.
  - intros kbd ->%list_elem_of_singleton. reflexivity.
Defined.

(** C8, as stated, fails.  Keyboards 1 and 2 are known, in this order, and
    both are the same device as keyboard 3.  Connecting keyboard 3 adds no
    entry, but the handle that becomes current is keyboard 1, the first
    listed match, not the listed keyboard 2. *)
Lemma connect_listed_counterexample :
  isSameDevice twinEnv (KeyboardRef 2) (KeyboardRef 3) = true ∧
  KeyboardRef 2 ∈ Entities.keyboards (entities sampleStateTwoKnown) ∧
  isOpened twinEnv (KeyboardRef 3) = false ∧
  dispatched (hidActionsThunk.connectKeyboard sampleTags twinEnv (KeyboardRef 3)
                sampleStateTwoKnown) =
    [ Plain (hidActions.updateKeyboard (KeyboardRef 1));
      Plain (AppActions.updateSetupPhase sampleTags fetchingKeyboardDefinition);
      FetchKeyboardDefinition 0x4653 0x0001 ] ∧
  ∃ state',
    store_after sampleTags sampleState sampleStateTwoKnown [1000; 1001]
      (hidActionsThunk.connectKeyboard sampleTags twinEnv (KeyboardRef 3)
         sampleStateTwoKnown) = Ok state' ∧
    Entities.keyboard (entities state') = Some (KeyboardRef 1) ∧
    Entities.keyboard (entities state') ≠ Some (KeyboardRef 2).
Proof.
  split; [reflexivity|]. split; [apply (bool_decide_unpack _); vm_compute; exact I|].
  split; [reflexivity|]. split; [reflexivity|].
  eexists. split; [vm_compute; reflexivity|]. split; [reflexivity|discriminate].
Qed.

Lemma connect_listed_device_witness :
  ∃ listed,
    List.find (λ kbd, isSameDevice twinEnv kbd (KeyboardRef 3))
      (Entities.keyboards (entities sampleStateTwoKnown)) = Some listed ∧
    listed ∈ Entities.keyboards (entities sampleStateTwoKnown) ∧
    isSameDevice twinEnv listed (KeyboardRef 3) = true ∧
    (∀ before after,
       Entities.keyboards (entities sampleStateTwoKnown)
         = before ++ KeyboardRef 1 :: after →
       (∀ kbd, kbd ∈ before → isSameDevice twinEnv kbd (KeyboardRef 3) = false) →
       listed = KeyboardRef 1) ∧
    run_connect sampleTags twinEnv ViaPicker sampleStateTwoKnown =
      mkThunk
        [ Plain (hidActions.updateKeyboard listed);
          Plain (AppActions.updateSetupPhase sampleTags fetchingKeyboardDefinition);
          FetchKeyboardDefinition
            (vendorId (getInformation twinEnv (KeyboardRef 3)))
            (productId (getInformation twinEnv (KeyboardRef 3))) ]
        (Ok ()) ∧
    ∃ state',
      store_after sampleTags sampleState sampleStateTwoKnown [1000; 1001]
        (run_connect sampleTags twinEnv ViaPicker sampleStateTwoKnown) = Ok state' ∧
      Entities.keyboards (entities state') =
        Entities.keyboards (entities sampleStateTwoKnown) ∧
      Entities.keyboard (entities state') = Some listed.
Proof.
  apply (connect_listed_device sampleTags sampleState twinEnv ViaPicker
           sampleStateTwoKnown (KeyboardRef 1) (KeyboardRef 3) 1000 1001).
  - exact sampleTags_wf.
  - reflexivity.
  - reflexivity.
  - apply (bool_decide_unpack _). vm_compute. exact I.
  - reflexivity.
Defined.

Lemma remaps_set_key_in_range_witness :
  ∃ state' tbl',
    reducers sampleTags sampleState 0 (Some sampleStateRemapped)
      (remapsSetKeyDescriptor sampleTags 1 "0,1" (VNum 4)) = Ok state' ∧
    length (App.remaps (app state')) = length (App.remaps (app sampleStateRemapped)) ∧
    App.remaps (app state') !! Z.to_nat 1 = Some tbl' ∧
    tbl' !! "0,1" = Some (VNum 4) ∧
    (∀ pos', pos' ≠ "0,1" → tbl' !! pos' = ({[ "0,0" := VNum 7 ]} : gmap string Value) !! pos') ∧
    (∀ l, l ≠ Z.to_nat 1 →
          App.remaps (app state') !! l = App.remaps (app sampleStateRemapped) !! l).
Proof.
  apply (remaps_set_key_in_range sampleTags sampleState 0 sampleStateRemapped 1 "0,1"
           (VNum 4) {[ "0,0" := VNum 7 ]}).
  - exact sampleTags_wf.
  - lia.
  - reflexivity.
Defined.

Lemma remaps_key_out_of_range_witness :
  reducers sampleTags sampleState 0 (Some sampleState)
    (remapsSetKeyDescriptor sampleTags 0 "0,0" (VNum 4)) = Throw TypeError ∧
  reducers sampleTags sampleState 0 (Some sampleState)
    (remapsRemoveKeyDescriptor sampleTags 0 "0,0") = Throw TypeError.
Proof.
  apply (remaps_key_out_of_range sampleTags sampleState 0 sampleState 0 "0,0" (VNum 4)).
  - exact sampleTags_wf.
  - right. cbn. lia.
Defined.

Lemma remaps_remove_key_in_range_witness :
  ∃ state' tbl',
    reducers sampleTags sampleState 0 (Some sampleStateRemapped)
      (remapsRemoveKeyDescriptor sampleTags 1 "0,0") = Ok state' ∧
    App.remaps (app state') !! Z.to_nat 1 = Some tbl' ∧
    tbl' !! "0,0" = None ∧
    (∀ pos', pos' ≠ "0,0" →
             tbl' !! pos' = ({[ "0,0" := VNum 7 ]} : gmap string Value) !! pos') ∧
    (∀ l, l ≠ Z.to_nat 1 →
          App.remaps (app state') !! l = App.remaps (app sampleStateRemapped) !! l) ∧
    (({[ "0,0" := VNum 7 ]} : gmap string Value) !! "0,0" = None →
     App.remaps (app state') = App.remaps (app sampleStateRemapped)).
Proof.
  apply (remaps_remove_key_in_range sampleTags sampleState 0 sampleStateRemapped 1
           "0,0" {[ "0,0" := VNum 7 ]}).
  - exact sampleTags_wf.
  - lia.
  - reflexivity.
Defined.

Lemma remaps_set_then_remove_witness :
  ∃ state',
    store_dispatch sampleTags sampleState sampleStateRemapped
      [(1000, remapsSetKeyDescriptor sampleTags 0 "2,3" (VNum 4));
       (1001, remapsRemoveKeyDescriptor sampleTags 0 "2,3")] = Ok state' ∧
    App.remaps (app state') = App.remaps (app sampleStateRemapped).
Proof.
  apply (remaps_set_then_remove sampleTags sampleState 1000 1001 sampleStateRemapped
           0 "2,3" (VNum 4) ∅).
  - exact sampleTags_wf.
  - lia.
  - reflexivity.
  - reflexivity.
Defined.

Lemma remaps_init_then_set_key_witness :
  ∃ state',
    store_dispatch sampleTags sampleState sampleState
      [(1000, AppActions.remapsInit sampleTags 2);
       (1001, remapsSetKeyDescriptor sampleTags 1 "0,0" (VNum 4))] = Ok state' ∧
    App.remaps (app state') =
      <[Z.to_nat 1 := {["0,0" := VNum 4]}]> (replicate (Z.to_nat 2) ∅) ∧
    length (App.remaps (app state')) = Z.to_nat 2.
Proof.
  apply (remaps_init_then_set_key sampleTags sampleState 1000 1001 sampleState 2 1
           "0,0" (VNum 4)).
  - exact sampleTags_wf.
  - lia.
Defined.

Lemma update_macro_lookup_witness :
  ∃ state',
    reducers sampleTags sampleState 0 (Some sampleState)
      (updateMacroDescriptor sampleTags 3 (VStr "hello")) = Ok state' ∧
    Device.macros (Entities.device (entities state')) !! 3 = Some (VStr "hello") ∧
    (∀ code', code' ≠ 3 →
       Device.macros (Entities.device (entities state')) !! code' =
       Device.macros (Entities.device (entities sampleState)) !! code') ∧
    Device.layerCount (Entities.device (entities state')) =
      Device.layerCount (Entities.device (entities sampleState)) ∧
    Device.keymaps (Entities.device (entities state')) =
      Device.keymaps (Entities.device (entities sampleState)).
Proof.
  apply (update_macro_lookup sampleTags sampleState 0 sampleState 3 (VStr "hello")).
  exact sampleTags_wf.
Defined.

Lemma notification_add_appends_witness :
  ∃ state',
    reducers sampleTags sampleState 1000 (Some sampleStateWarned)
      (mkAction (NOTIFICATION_ADD_INFO sampleTags) (VStr "saved")) = Ok state' ∧
    App.notifications (app state') =
      App.notifications (app sampleStateWarned)
        ++ [mkNotification (pretty 1000) "info" (VStr "saved")] ∧
    length (App.notifications (app state')) =
      S (length (App.notifications (app sampleStateWarned))).
Proof.
  apply (notification_add_appends sampleTags sampleState 1000 sampleStateWarned
           (mkAction (NOTIFICATION_ADD_INFO sampleTags) (VStr "saved")) "info").
  - exact sampleTags_wf.
  - apply (list_elem_of_lookup_2 _ 2%nat). reflexivity.
Defined.

Lemma notification_remove_filters_witness :
  ∃ state',
    reducers sampleTags sampleState 1000 (Some sampleStateWarned)
      (removeNotificationDescriptor sampleTags "999") = Ok state' ∧
    App.notifications (app state') =
      filter (λ item, key item ≠ "999") (App.notifications (app sampleStateWarned)) ∧
    ("999" ∉ notification_keys state') ∧
    ("999" ∉ notification_keys sampleStateWarned →
     App.notifications (app state') = App.notifications (app sampleStateWarned)) ∧
    reducers sampleTags sampleState 1000 (Some state')
      (removeNotificationDescriptor sampleTags "999") = Ok state'.
Proof.
  apply (notification_remove_filters sampleTags sampleState 1000 sampleStateWarned "999").
  exact sampleTags_wf.
Defined.

Lemma notification_add_then_remove_witness :
  ∃ state',
    store_dispatch sampleTags sampleState sampleStateWarned
      [(999, NotificationActions.addError sampleTags "second");
       (1001, removeNotificationDescriptor sampleTags (pretty 999))] = Ok state' ∧
    App.notifications (app state') =
      filter (λ item, key item ≠ pretty 999) (App.notifications (app sampleStateWarned)) ∧
    (pretty 999 ∉ notification_keys sampleStateWarned →
     App.notifications (app state') = App.notifications (app sampleStateWarned)).
Proof.
  apply (notification_add_then_remove sampleTags sampleState 999 1001 sampleStateWarned
           (NotificationActions.addError sampleTags "second") "error").
  - exact sampleTags_wf.
  - apply (list_elem_of_lookup_2 _ 0%nat). reflexivity.
Defined.

Lemma store_never_writes_hid_storage_witness :
  ∃ state',
    store_dispatch sampleTags sampleState sampleStateWarned sampleDismissLog
      = Ok state' ∧
    hid state' = hid sampleStateWarned ∧ storage state' = storage sampleStateWarned.
Proof.
  eexists. split; [vm_compute; reflexivity|].
  apply (store_never_writes_hid_storage sampleTags sampleState sampleStateWarned
           sampleDismissLog _ eq_refl).
Defined.

Lemma hid_action_without_payload_witness :
  reducers sampleTags sampleState 0 (Some sampleState)
    (mkAction HID_UPDATE_KEYBOARD_LIST VUndefined) = Throw TypeError.
Proof.
  apply hid_action_without_payload.
  - apply (list_elem_of_lookup_2 _ 4%nat). reflexivity.
  - by left.
Defined.

Lemma connect_not_selected_witness :
  hidActionsThunk.connectAnotherKeyboard sampleTags failingEnv sampleStateTwoKnown =
    mkThunk [Plain (AppActions.updateSetupPhase sampleTags keyboardNotSelected)] (Ok ()) ∧
  ∃ state',
    store_after sampleTags sampleState sampleStateTwoKnown [1000]
      (hidActionsThunk.connectAnotherKeyboard sampleTags failingEnv sampleStateTwoKnown)
      = Ok state' ∧
    App.setupPhase (app state') = VPhase keyboardNotSelected ∧
    entities state' = entities sampleStateTwoKnown.
Proof.
  apply (connect_not_selected sampleTags sampleState failingEnv sampleStateTwoKnown 1000).
  - exact sampleTags_wf.
  - reflexivity.
Defined.

Lemma connect_new_device_witness :
  run_connect sampleTags strangerEnvClosed ViaPicker sampleStateTwoKnown =
    mkThunk
      [ Plain (hidActions.updateKeyboardList
                 (Entities.keyboards (entities sampleStateTwoKnown) ++ [KeyboardRef 3]));
        Plain (hidActions.updateKeyboard (KeyboardRef 3));
        Plain (AppActions.updateSetupPhase sampleTags fetchingKeyboardDefinition);
        FetchKeyboardDefinition
          (vendorId (getInformation strangerEnvClosed (KeyboardRef 3)))
          (productId (getInformation strangerEnvClosed (KeyboardRef 3))) ]
      (Ok ()) ∧
  ∃ state',
    store_after sampleTags sampleState sampleStateTwoKnown [1000; 1001; 1002]
      (run_connect sampleTags strangerEnvClosed ViaPicker sampleStateTwoKnown)
      = Ok state' ∧
    Entities.keyboards (entities state') =
      Entities.keyboards (entities sampleStateTwoKnown) ++ [KeyboardRef 3] ∧
    Entities.keyboard (entities state') = Some (KeyboardRef 3) ∧
    App.setupPhase (app state') = VPhase fetchingKeyboardDefinition.
Proof.
  apply (connect_new_device sampleTags sampleState strangerEnvClosed ViaPicker
           sampleStateTwoKnown (KeyboardRef 3) 1000 1001 1002).
  - exact sampleTags_wf.
  - reflexivity.
  - reflexivity.
  - intros kbd Hin. change (kbd ∈ [KeyboardRef 1; KeyboardRef 2]) in Hin.
    apply elem_of_cons in Hin as [-> | ->%list_elem_of_singleton]; reflexivity.
Defined.

Lemma connect_assigns_snapshot_witness :
  ∃ state',
    store_after sampleTags sampleState sampleStateLaterKnown [1000; 1001; 1002]
      (run_connect sampleTags strangerEnvClosed ViaPicker sampleStateTwoKnown)
      = Ok state' ∧
    Entities.keyboards (entities sampleStateTwoKnown) = [KeyboardRef 1; KeyboardRef 2] ∧
    Entities.keyboards (entities sampleStateLaterKnown) =
      [KeyboardRef 1; KeyboardRef 2; KeyboardRef 4] ∧
    Entities.keyboards (entities state') =
      [KeyboardRef 1; KeyboardRef 2; KeyboardRef 3] ∧
    (Entities.keyboards (entities state') =
       Entities.keyboards (entities sampleStateLaterKnown)
     ∨ ∃ keyboard,
         acquires strangerEnvClosed ViaPicker keyboard ∧
         isOpened strangerEnvClosed keyboard = false ∧
         Entities.keyboards (entities state') =
           Entities.keyboards (entities sampleStateTwoKnown) ++ [keyboard]).
Proof.
  eexists. split; [vm_compute; reflexivity|].
  do 3 (split; [reflexivity|]).
  apply (connect_assigns_snapshot sampleTags sampleState strangerEnvClosed ViaPicker
           sampleStateTwoKnown sampleStateLaterKnown [1000; 1001; 1002]).
  - exact sampleTags_wf.
  - vm_compute. reflexivity.
Defined.

Lemma connect_keeps_devices_distinct_witness :
  ∃ state',
    store_after sampleTags sampleState sampleStateTwoKnown [1000; 1001; 1002]
      (run_connect sampleTags strangerEnvClosed ViaPicker sampleStateTwoKnown)
      = Ok state' ∧
    distinct_devices strangerEnvClosed (Entities.keyboards (entities state')).
Proof.
  eexists. split; [vm_compute; reflexivity|].
  apply (connect_keeps_devices_distinct sampleTags sampleState strangerEnvClosed
           ViaPicker sampleStateTwoKnown [1000; 1001; 1002]).
  - exact sampleTags_wf.
  - intros i j a b Hij Ha Hb.
    change ([KeyboardRef 1; KeyboardRef 2] !! i = Some a) in Ha.
    change ([KeyboardRef 1; KeyboardRef 2] !! j = Some b) in Hb.
    destruct i as [|[|i]], j as [|[|j]]; try lia; cbn in Ha, Hb;
      try discriminate; injection Ha as <-; injection Hb as <-; reflexivity.
  - vm_compute. reflexivity.
Defined.

Lemma openKeyboard_open_fails_witness :
  hidActionsThunk.openKeyboard sampleTags strangerEnvClosed sampleStateSelected =
    mkThunk [Plain (NotificationActions.addError sampleTags "Could not open")] (Ok ()) ∧
  ∃ state',
    store_after sampleTags sampleState sampleStateSelected [1000]
      (hidActionsThunk.openKeyboard sampleTags strangerEnvClosed sampleStateSelected)
      = Ok state' ∧
    App.notifications (app state') =
      App.notifications (app sampleStateSelected)
        ++ [mkNotification (pretty 1000) "error" (VStr "Could not open")] ∧
    App.setupPhase (app state') = App.setupPhase (app sampleStateSelected) ∧
    entities state' = entities sampleStateSelected.
Proof.
  apply (openKeyboard_open_fails sampleTags sampleState strangerEnvClosed
           sampleStateSelected (KeyboardRef 1) 1000).
  - exact sampleTags_wf.
  - reflexivity.
  - reflexivity.
Defined.

Lemma openKeyboard_throws_witness :
  hidActionsThunk.openKeyboard sampleTags twoLayerEnv sampleStateUndefined =
    mkThunk [] (Throw TypeError).
Proof.
  apply openKeyboard_throws. right. exists (KeyboardRef 1).
  split; [reflexivity|]. split; [reflexivity|]. right; left. reflexivity.
Defined.

Lemma openKeyboard_success_witness :
  length (dispatched (hidActionsThunk.openKeyboard sampleTags twoLayerEnv
                        sampleStateSelected)) = 6%nat ∧
  outcome (hidActionsThunk.openKeyboard sampleTags twoLayerEnv sampleStateSelected)
    = Ok () ∧
  ∃ state',
    store_after sampleTags sampleState sampleStateSelected
      [1000; 1001; 1002; 1003; 1004; 1005]
      (hidActionsThunk.openKeyboard sampleTags twoLayerEnv sampleStateSelected)
      = Ok state' ∧
    Device.layerCount (Entities.device (entities state')) = VNum 2 ∧
    Device.keymaps (Entities.device (entities state')) =
      VArr (fetched twoLayerEnv (KeyboardRef 1) (VNum 4) (VNum 12) <$> seqZ 0 2) ∧
    App.remaps (app state') = replicate (Z.to_nat 2) ∅ ∧
    Keyboards.selectedLayer (keyboards state') = VNum 0 ∧
    Entities.keyboard (entities state') = Some (KeyboardRef 1) ∧
    App.setupPhase (app state') = VPhase openedKeyboard ∧
    Entities.keyboards (entities state') =
      Entities.keyboards (entities sampleStateSelected) ∧
    App.notifications (app state') = App.notifications (app sampleStateSelected).
Proof.
  apply (openKeyboard_success sampleTags sampleState twoLayerEnv sampleStateSelected
           (KeyboardRef 1) (VObj [("rows", VNum 4); ("cols", VNum 12)])
           (VNum 4) (VNum 12) 2 [1000; 1001; 1002; 1003; 1004; 1005]).
  - exact sampleTags_wf.
  - reflexivity.
  - reflexivity.
  - reflexivity.
  - reflexivity.
  - reflexivity.
  - reflexivity.
  - intros i Hi. reflexivity.
  - reflexivity.
Defined.


Lemma submit_enabled_implies_draft_enabled_witness :
  CreateDefinition.saveAsDraftDisabled sampleProps = false ∧
  truthy (CreateDefinition.agreement sampleProps) = true ∧
  truthy (CreateDefinition.contactInformation sampleProps) = true.
Proof.
  apply (submit_enabled_implies_draft_enabled
           (is_place "qmk") (is_place "forked") (is_place "other") sampleProps).
  vm_compute. reflexivity.
Defined.

Lemma submit_disabled_without_place_witness :
  CreateDefinition.submitForReviewDisabled
    (is_place "qmk") (is_place "forked") (is_place "other") samplePropsNoPlace = true.
Proof.
  apply submit_disabled_without_place; vm_compute; reflexivity.
Defined.

Lemma session_submits_only_on_request_witness :
  (CreateDefinition.submitForReview ∈ [CreateDefinition.submitForReview] →
   CreateDefinition.SubmitForReviewButton
     ∈ [CreateDefinition.SubmitForReviewButton; CreateDefinition.ConfirmYes]) ∧
  length (filter (λ c, c ≠ CreateDefinition.backToList)
            [CreateDefinition.submitForReview]) =
    length (filter (λ c, c = CreateDefinition.ConfirmYes)
              [CreateDefinition.SubmitForReviewButton; CreateDefinition.ConfirmYes]).
Proof.
  apply (session_submits_only_on_request
           [CreateDefinition.SubmitForReviewButton; CreateDefinition.ConfirmYes]
           (CreateDefinition.mkState false false)).
  reflexivity.
Defined.
